(** * Gradely dashboard script: theme and sidebar controllers

    A shallow embedding of [staticfiles/dashboard/js/dashboard.js].

    The script consists of two immediately-invoked function expressions
    that run once, in order, when the page loads:

    - the theme controller, which resolves the colour theme from
      [localStorage] and the system colour-scheme preference, writes it
      to the [data-theme] attribute of the root element and registers
      [toggleTheme] for [change] events of the theme checkbox;
    - the sidebar controller, which looks up three elements, returns
      early when one of them is missing, restores a collapsed sidebar
      from [localStorage] and registers a [click] listener on the
      toggle button.

    The browser is modelled as an explicit world: the document (a list
    of elements in tree order, addressed by handles, so that two
    variables may alias one element), the key-value store, the
    [window.matchMedia] function, the listener table and a trace of the
    effects performed so far.  JavaScript code becomes a computation in
    a state-and-exception monad over that world; a member access on
    [null] raises [TypeError] as it does in the browser.

    Modelling assumptions, all about the browser and none about the
    script: [localStorage] is available and its reads and writes
    succeed; the script is loaded once per page; an event of the
    model is one delivery to the listeners of one element, so that a
    gesture that propagates through ancestors or activates a checkbox
    is a sequence of events.  The page itself is arbitrary: any
    elements, with any attributes, class lists and [checked] flags,
    with or without the elements the script looks for. *)

From stdpp Require Import base option list strings gmap fin_maps.

#[local] Set Warnings "-clear-no-such-hyp".

Local Open Scope string_scope.
Local Open Scope list_scope.

(** ** The browser world *)

(** An element is addressed by its position in tree order; position
    [0] is the root element ([document.documentElement]). *)
Definition Handle := nat.

(** A JavaScript variable holding either [null] or an element. *)
Definition Ref := option Handle.

(** The function objects the script passes to [addEventListener].
    The sidebar listener is a closure over the three [const] bindings
    of its enclosing function. *)
Inductive Listener : Type :=
  | ToggleThemeListener
  | SidebarClickListener (sidebar container toggleButton : Ref).

(** An element: its content attributes ([id], [data-theme],
    [aria-expanded], [aria-label], ...), its class token list and the
    [checked] property of a checkbox. *)
Record Element : Type := mkElement {
  attributes : gmap string string;
  classList : list string;
  checked : bool
}.

(** A document always has a root element. *)
Record Document : Type := mkDocument {
  documentElement : Element;
  descendants : list Element
}.

(** Observable effects, recorded in program order. *)
Inductive Effect : Type :=
  | EGetItem (key : string)
  | ESetItem (key value : string)
  | ESetAttribute (target : Handle) (name value : string)
  | EClassAdd (target : Handle) (token : string)
  | EClassRemove (target : Handle) (token : string)
  | ESetChecked (target : Handle) (value : bool)
  | EAddEventListener (target : Handle) (type : string).

Record World : Type := mkWorld {
  document : Document;
  localStorage : gmap string string;
  (** [window.matchMedia]: absent in old browsers, otherwise maps a
      media query to the [matches] flag of the resulting list. *)
  matchMedia : option (string → bool);
  (** registered listeners, in registration order *)
  listeners : list (Handle * string * Listener);
  trace : list Effect
}.

(** The world in which the script starts: nothing of it has run yet,
    so no listener is registered and the trace is empty. *)
Definition page (d : Document) (st : gmap string string)
    (mm : option (string → bool)) : World :=
  mkWorld d st mm [] [].

(** *** Documents as node lists *)

Definition nodes (d : Document) : list Element :=
  documentElement d :: descendants d.

Definition update_node (h : Handle) (f : Element → Element)
    (d : Document) : Document :=
  match h with
  | 0 => mkDocument (f (documentElement d)) (descendants d)
  | S i => mkDocument (documentElement d) (alter f i (descendants d))
  end.

Definition node (w : World) (h : Handle) : option Element :=
  nodes (document w) !! h.

(** The [id] content attribute of every node, in tree order. *)
Definition ids (d : Document) : list (option string) :=
  (λ e, attributes e !! "id") <$> nodes d.

(** [document.getElementById]: the first element in tree order whose
    [id] attribute equals the argument, or [null]. *)
Definition find_by_id (d : Document) (id : string) : Ref :=
  fst <$> list_find (λ e, attributes e !! "id" = Some id) (nodes d).

(** *** Element updates *)

Definition with_attribute (name value : string) (e : Element) : Element :=
  mkElement (<[name := value]> (attributes e)) (classList e) (checked e).

(** [DOMTokenList.add]: the list is an ordered set. *)
Definition token_add (c : string) (l : list string) : list string :=
  if bool_decide (c ∈ l) then l else l ++ [c].

(** [DOMTokenList.remove]. *)
Definition token_remove (c : string) (l : list string) : list string :=
  filter (λ x, x ≠ c) l.

Definition with_class (c : string) (e : Element) : Element :=
  mkElement (attributes e) (token_add c (classList e)) (checked e).

Definition without_class (c : string) (e : Element) : Element :=
  mkElement (attributes e) (token_remove c (classList e)) (checked e).

Definition with_checked (b : bool) (e : Element) : Element :=
  mkElement (attributes e) (classList e) b.

(** *** World updates

    One function per kind of effect; each records itself in the trace. *)

Definition log (ev : Effect) (w : World) : World :=
  mkWorld (document w) (localStorage w) (matchMedia w) (listeners w)
          (trace w ++ [ev]).

Definition modify_node (h : Handle) (f : Element → Element) (w : World) : World :=
  mkWorld (update_node h f (document w)) (localStorage w) (matchMedia w)
          (listeners w) (trace w).

Definition put_attribute (h : Handle) (name value : string) (w : World) : World :=
  log (ESetAttribute h name value) (modify_node h (with_attribute name value) w).

Definition put_class (h : Handle) (c : string) (w : World) : World :=
  log (EClassAdd h c) (modify_node h (with_class c) w).

Definition drop_class (h : Handle) (c : string) (w : World) : World :=
  log (EClassRemove h c) (modify_node h (without_class c) w).

Definition put_checked (h : Handle) (b : bool) (w : World) : World :=
  log (ESetChecked h b) (modify_node h (with_checked b) w).

(** [addEventListener] ignores a listener that is already registered
    for the same type; every function object of the script is created
    and registered once per load, so the table only grows here. *)
Definition put_listener (h : Handle) (type : string) (l : Listener)
    (w : World) : World :=
  log (EAddEventListener h type)
      (mkWorld (document w) (localStorage w) (matchMedia w)
               (listeners w ++ [(h, type, l)]) (trace w)).

Definition put_item (key value : string) (w : World) : World :=
  log (ESetItem key value)
      (mkWorld (document w) (<[key := value]> (localStorage w)) (matchMedia w)
               (listeners w) (trace w)).

(** ** The JavaScript monad *)

Inductive JsError : Type :=
  | TypeError (message : string)
  (** a handle that does not denote a node of the document; handles
      only come from [getElementById] and [documentElement], and
      [script_never_throws] below shows this is never raised *)
  | StaleHandle (h : Handle).

Inductive Completion (A : Type) : Type :=
  | Normal (a : A) (w : World)
  | Throw (e : JsError) (w : World).
Arguments Normal {A} a w.
Arguments Throw {A} e w.

Definition JS (A : Type) : Type := World → Completion A.

Definition js_ret {A} (a : A) : JS A := λ w, Normal a w.

Definition js_bind {A B} (m : JS A) (k : A → JS B) : JS B :=
  λ w, match m w with
       | Normal a w' => k a w'
       | Throw e w' => Throw e w'
       end.

Notation "x <- m ;; k" := (js_bind m (λ x, k))
  (at level 100, m at next level, right associativity,
   format "'[v' x  <-  m  ;; '/' k ']'").
Notation "m ;;; k" := (js_bind m (λ _, k))
  (at level 100, right associativity,
   format "'[v' m  ;;; '/' k ']'").

(** *** Truthiness *)

(** A string-or-null value is truthy when it is a non-empty string. *)
Definition truthy (v : option string) : bool :=
  match v with
  | Some s => negb (bool_decide (s = ""))
  | None => false
  end.

(** The string a string-or-null value is converted to when it is
    passed where the DOM expects a string. *)
Definition to_DOMString (v : option string) : string :=
  match v with
  | Some s => s
  | None => "null"
  end.

(** [v || d] on a string-or-null value. *)
Definition or_else (v : option string) (d : string) : string :=
  match v with
  | Some s => if bool_decide (s = "") then d else s
  | None => d
  end.

(** ** Browser primitives *)

Definition getElementById (id : string) : JS Ref :=
  λ w, Normal (find_by_id (document w) id) w.

(** [document.documentElement] is never [null]. *)
Definition document_documentElement : Ref := Some 0.

(** Dereference a variable for a member access. *)
Definition deref (r : Ref) (member : string) : JS Handle :=
  λ w, match r with
       | None => Throw (TypeError (String.append "Cannot read properties of null: " member)) w
       | Some h =>
           match node w h with
           | Some _ => Normal h w
           | None => Throw (StaleHandle h) w
           end
       end.

Definition getAttribute (r : Ref) (name : string) : JS (option string) :=
  h <- deref r "getAttribute";;
  λ w, Normal (e ← node w h; attributes e !! name) w.

Definition setAttribute (r : Ref) (name value : string) : JS unit :=
  h <- deref r "setAttribute";;
  λ w, Normal tt (put_attribute h name value w).

Definition classList_add (r : Ref) (c : string) : JS unit :=
  h <- deref r "classList";;
  λ w, Normal tt (put_class h c w).

Definition classList_remove (r : Ref) (c : string) : JS unit :=
  h <- deref r "classList";;
  λ w, Normal tt (drop_class h c w).

Definition classList_contains (r : Ref) (c : string) : JS bool :=
  h <- deref r "classList";;
  λ w, Normal (match node w h with
               | Some e => bool_decide (c ∈ classList e)
               | None => false
               end) w.

Definition set_checked (r : Ref) (b : bool) : JS unit :=
  h <- deref r "checked";;
  λ w, Normal tt (put_checked h b w).

Definition addEventListener (r : Ref) (type : string) (l : Listener) : JS unit :=
  h <- deref r "addEventListener";;
  λ w, Normal tt (put_listener h type l w).

Definition localStorage_getItem (key : string) : JS (option string) :=
  λ w, Normal (localStorage w !! key) (log (EGetItem key) w).

Definition localStorage_setItem (key value : string) : JS unit :=
  λ w, Normal tt (put_item key value w).

(** [window.matchMedia && window.matchMedia(query).matches], as the
    condition it is used for: [undefined] is falsy. *)
Definition media_matches (mm : option (string → bool)) (query : string) : bool :=
  match mm with
  | Some mq => mq query
  | None => false
  end.

Definition matchMedia_matches (query : string) : JS bool :=
  λ w, Normal (media_matches (matchMedia w) query) w.

(** ** The script *)

(** *** Theme management (first function of the script) *)

Definition toggleTheme : JS unit :=
  attr <- getAttribute document_documentElement "data-theme";;
  let currentTheme := or_else attr "light" in
  let newTheme := if bool_decide (currentTheme = "dark") then "light" else "dark" in
  setAttribute document_documentElement "data-theme" newTheme;;;
  localStorage_setItem "theme" newTheme.

Definition theme_module : JS unit :=
  checkbox <- getElementById "theme-toggle-checkbox";;
  theme <- localStorage_getItem "theme";;
  (if truthy theme then
     setAttribute document_documentElement "data-theme" (to_DOMString theme);;;
     if bool_decide (theme = Some "dark") && bool_decide (is_Some checkbox)
     then set_checked checkbox true
     else js_ret tt
   else
     prefersDark <- matchMedia_matches "(prefers-color-scheme: dark)";;
     if prefersDark then
       setAttribute document_documentElement "data-theme" "dark";;;
       if bool_decide (is_Some checkbox)
       then set_checked checkbox true
       else js_ret tt
     else js_ret tt);;;
  if bool_decide (is_Some checkbox)
  then addEventListener checkbox "change" ToggleThemeListener
  else js_ret tt.

(** *** Collapsible sidebar (second function of the script) *)

Definition collapseSidebar (sidebar container toggleButton : Ref) : JS unit :=
  classList_add sidebar "is-collapsed";;;
  classList_add container "is-collapsed";;;
  setAttribute toggleButton "aria-expanded" "false";;;
  setAttribute toggleButton "aria-label" "Expand sidebar";;;
  localStorage_setItem "sidebarState" "collapsed".

Definition expandSidebar (sidebar container toggleButton : Ref) : JS unit :=
  classList_remove sidebar "is-collapsed";;;
  classList_remove container "is-collapsed";;;
  setAttribute toggleButton "aria-expanded" "true";;;
  setAttribute toggleButton "aria-label" "Collapse sidebar";;;
  localStorage_setItem "sidebarState" "expanded".

(** The arrow function registered for [click] on the toggle button. *)
Definition sidebar_click (sidebar container toggleButton : Ref) : JS unit :=
  collapsed <- classList_contains sidebar "is-collapsed";;
  if collapsed
  then expandSidebar sidebar container toggleButton
  else collapseSidebar sidebar container toggleButton.

Definition sidebar_module : JS unit :=
  sidebar <- getElementById "main-sidebar";;
  container <- getElementById "main-container";;
  toggleButton <- getElementById "sidebar-toggle-button";;
  if negb (bool_decide (is_Some sidebar))
     || negb (bool_decide (is_Some container))
     || negb (bool_decide (is_Some toggleButton))
  then js_ret tt
  else
    sidebarState <- localStorage_getItem "sidebarState";;
    (if bool_decide (sidebarState = Some "collapsed")
     then collapseSidebar sidebar container toggleButton
     else js_ret tt);;;
    addEventListener toggleButton "click"
      (SidebarClickListener sidebar container toggleButton).

(** The whole file, as the browser evaluates it at page load. *)
Definition load : JS unit :=
  theme_module;;;
  sidebar_module.

(** ** User events *)

Definition run_listener (l : Listener) : JS unit :=
  match l with
  | ToggleThemeListener => toggleTheme
  | SidebarClickListener s c b => sidebar_click s c b
  end.

Fixpoint run_listeners (ls : list Listener) : JS unit :=
  match ls with
  | [] => js_ret tt
  | l :: ls' => run_listener l;;; run_listeners ls'
  end.

(** The listeners registered on [h] for events of type [type]. *)
Definition listeners_for (h : Handle) (type : string)
    (table : list (Handle * string * Listener)) : list Listener :=
  omap (λ '(h', type', l),
          if bool_decide (h' = h) && bool_decide (type' = type)
          then Some l else None) table.

Definition dispatchEvent (h : Handle) (type : string) : JS unit :=
  λ w, run_listeners (listeners_for h type (listeners w)) w.

(** The events are deliveries: [Click h] is a [click] event arriving
    at the listeners of [h], [Change h] is the browser flipping the
    checkbox [h] and then delivering [change] to its listeners.  One
    gesture in the browser is a sequence of them: a click is delivered
    to every element of its propagation path, and a click that
    activates a checkbox is followed by the [Change] of that checkbox.
    The theorems about sessions quantify over all sequences. *)
Inductive UserEvent : Type :=
  (** the user flips a checkbox: the browser updates [checked], then
      fires [change] *)
  | Change (target : Handle)
  (** a [click] event reaches the listeners of an element *)
  | Click (target : Handle).

Definition flip_checked (e : Element) : Element :=
  with_checked (negb (checked e)) e.

Definition user_event (ev : UserEvent) : JS unit :=
  match ev with
  | Change h =>
      (λ w, Normal tt (modify_node h flip_checked w));;;
      dispatchEvent h "change"
  | Click h => dispatchEvent h "click"
  end.

Fixpoint user_events (evs : list UserEvent) : JS unit :=
  match evs with
  | [] => js_ret tt
  | ev :: evs' => user_event ev;;; user_events evs'
  end.

(** ** Observations *)

(** The rendered theme: the [data-theme] attribute of the root. *)
Definition rendered_theme (w : World) : option string :=
  attributes (documentElement (document w)) !! "data-theme".

Definition stored_theme (w : World) : option string :=
  localStorage w !! "theme".

Definition stored_sidebarState (w : World) : option string :=
  localStorage w !! "sidebarState".

Definition has_class (w : World) (h : Handle) (c : string) : bool :=
  match node w h with
  | Some e => bool_decide (c ∈ classList e)
  | None => false
  end.

Definition attribute_of (w : World) (h : Handle) (name : string) : option string :=
  e ← node w h; attributes e !! name.

Definition is_checked (w : World) (h : Handle) : bool :=
  match node w h with
  | Some e => checked e
  | None => false
  end.

(** The rendered sidebar state, named as the script stores it. *)
Definition rendered_sidebar (w : World) (sidebar : Handle) : string :=
  if has_class w sidebar "is-collapsed" then "collapsed" else "expanded".

(** The system colour-scheme preference reports dark. *)
Definition system_prefers_dark (w : World) : bool :=
  media_matches (matchMedia w) "(prefers-color-scheme: dark)".

(** The effective theme by the precedence of the specification:
    the stored preference when there is one (a non-empty string),
    else dark when the system prefers dark, else light. *)
Definition resolved_theme (w : World) : string :=
  if truthy (stored_theme w) then to_DOMString (stored_theme w)
  else if system_prefers_dark w then "dark"
  else "light".

Definition writes_storage (ev : Effect) : bool :=
  match ev with ESetItem _ _ => true | _ => false end.

Definition writes_key (key : string) (ev : Effect) : bool :=
  match ev with ESetItem k _ => bool_decide (k = key) | _ => false end.

Definition sets_checked (ev : Effect) : bool :=
  match ev with ESetChecked _ _ => true | _ => false end.


(** ** The worlds the functions of the script end in

    Each function of the script, run on handles that denote nodes, is a
    fixed composition of world updates.  The compositions are named
    here; the section "What the script computes" proves that the
    monadic code above ends in them. *)

(** A handle is valid in a document when it denotes one of its nodes. *)
Definition valid (d : Document) (h : Handle) : Prop :=
  is_Some (nodes d !! h).
Global Arguments valid : simpl never.

(** The value [toggleTheme] computes for [newTheme]. *)
Definition toggled_theme (w : World) : string :=
  if bool_decide (or_else (rendered_theme w) "light" = "dark")
  then "light" else "dark".

Definition toggled (w : World) : World :=
  put_item "theme" (toggled_theme w)
    (put_attribute 0 "data-theme" (toggled_theme w) w).

Definition collapsed (s c b : Handle) (w : World) : World :=
  put_item "sidebarState" "collapsed"
    (put_attribute b "aria-label" "Expand sidebar"
       (put_attribute b "aria-expanded" "false"
          (put_class c "is-collapsed"
             (put_class s "is-collapsed" w)))).

Definition expanded (s c b : Handle) (w : World) : World :=
  put_item "sidebarState" "expanded"
    (put_attribute b "aria-label" "Collapse sidebar"
       (put_attribute b "aria-expanded" "true"
          (drop_class c "is-collapsed"
             (drop_class s "is-collapsed" w)))).

Definition clicked (s c b : Handle) (w : World) : World :=
  if has_class w s "is-collapsed" then expanded s c b w else collapsed s c b w.

(** The theme the initialisation writes to [data-theme], if it writes
    one: the stored string when it is truthy, otherwise ["dark"] when
    the system prefers dark, otherwise nothing. *)
Definition initial_theme (w : World) : option string :=
  if truthy (stored_theme w) then Some (to_DOMString (stored_theme w))
  else if system_prefers_dark w then Some "dark"
  else None.

Definition theme_loaded (w : World) : World :=
  let checkbox := find_by_id (document w) "theme-toggle-checkbox" in
  let w1 := log (EGetItem "theme") w in
  let w2 :=
    match initial_theme w with
    | Some t =>
        let w' := put_attribute 0 "data-theme" t w1 in
        match checkbox with
        | Some cb => if bool_decide (t = "dark") then put_checked cb true w' else w'
        | None => w'
        end
    | None => w1
    end in
  match checkbox with
  | Some cb => put_listener cb "change" ToggleThemeListener w2
  | None => w2
  end.

Definition sidebar_loaded (w : World) : World :=
  match find_by_id (document w) "main-sidebar",
        find_by_id (document w) "main-container",
        find_by_id (document w) "sidebar-toggle-button" with
  | Some s, Some c, Some b =>
      let w1 := log (EGetItem "sidebarState") w in
      let w2 := if bool_decide (stored_sidebarState w = Some "collapsed")
                then collapsed s c b w1 else w1 in
      put_listener b "click" (SidebarClickListener (Some s) (Some c) (Some b)) w2
  | _, _, _ => w
  end.

(** ** The state spaces of the specification *)

(** The two themes, and the strings that name them in the
    [data-theme] attribute and under the [theme] storage key. *)
Inductive Theme : Type := Light | Dark.

Definition theme_name (v : Theme) : string :=
  match v with Light => "light" | Dark => "dark" end.

Definition opposite (v : Theme) : Theme :=
  match v with Light => Dark | Dark => Light end.

(** The two sidebar states, the strings stored under [sidebarState],
    and the operation of the script that enters each state. *)
Inductive SidebarState : Type := Collapsed | Expanded.

Definition state_name (st : SidebarState) : string :=
  match st with Collapsed => "collapsed" | Expanded => "expanded" end.

Definition other_state (st : SidebarState) : SidebarState :=
  match st with Collapsed => Expanded | Expanded => Collapsed end.

Definition is_collapsed (st : SidebarState) : bool :=
  match st with Collapsed => true | Expanded => false end.

Definition enter (st : SidebarState) : Ref → Ref → Ref → JS unit :=
  match st with Collapsed => collapseSidebar | Expanded => expandSidebar end.

(** The sidebar is rendered and stored in state [st]: both elements
    agree on the marker class and storage names the state. *)
Definition sidebar_in_state (w : World) (s c : Handle) (st : SidebarState) : Prop :=
  has_class w s "is-collapsed" = is_collapsed st
  ∧ has_class w c "is-collapsed" = is_collapsed st
  ∧ stored_sidebarState w = Some (state_name st).

(** ** The listeners a loaded page carries *)

Definition theme_listeners (d : Document) : list (Handle * string * Listener) :=
  match find_by_id d "theme-toggle-checkbox" with
  | Some cb => [(cb, "change", ToggleThemeListener)]
  | None => []
  end.

Definition sidebar_listeners (d : Document) : list (Handle * string * Listener) :=
  match find_by_id d "main-sidebar",
        find_by_id d "main-container",
        find_by_id d "sidebar-toggle-button" with
  | Some s, Some c, Some b =>
      [(b, "click", SidebarClickListener (Some s) (Some c) (Some b))]
  | _, _, _ => []
  end.

(** What stays fixed once the page [d] has loaded, whatever the user
    does: the identifiers of the nodes and the listener table. *)
Definition loaded (d : Document) (w : World) : Prop :=
  ids (document w) = ids d
  ∧ listeners w = theme_listeners d ++ sidebar_listeners d.

(** All three handles of the sidebar controller are present. *)
Definition sidebar_handles (d : Document) (s c b : Handle) : Prop :=
  find_by_id d "main-sidebar" = Some s
  ∧ find_by_id d "main-container" = Some c
  ∧ find_by_id d "sidebar-toggle-button" = Some b.

(** A listener the script itself registers on the page [d]. *)
Definition own_listener (d : Document) (l : Listener) : Prop :=
  match l with
  | ToggleThemeListener => True
  | SidebarClickListener rs rc rb =>
      ∃ s c b, rs = Some s ∧ rc = Some c ∧ rb = Some b ∧ sidebar_handles d s c b
  end.

(** The trace holds no write under the [theme] key. *)
Definition no_theme_write (tr : list Effect) : Prop :=
  Forall (λ ev, writes_key "theme" ev = false) tr.

(** What a click leaves alone: the [theme] key and its absence from
    the trace. *)
Definition theme_untouched (d : Document) (v : option string) (w : World) : Prop :=
  loaded d w ∧ stored_theme w = v ∧ no_theme_write (trace w).

(** ** What a user event does to a loaded page

    On the page [d], once loaded, a change of the theme checkbox runs
    [toggleTheme] after the browser has flipped the box, a click on
    the toggle button of a complete sidebar runs the click listener,
    and every other event finds no listener. *)
Definition after_event (d : Document) (ev : UserEvent) (w : World) : World :=
  match ev with
  | Change h =>
      let w1 := modify_node h flip_checked w in
      if bool_decide (find_by_id d "theme-toggle-checkbox" = Some h)
      then toggled w1 else w1
  | Click h =>
      match find_by_id d "main-sidebar",
            find_by_id d "main-container",
            find_by_id d "sidebar-toggle-button" with
      | Some s, Some c, Some b =>
          if bool_decide (b = h) then clicked s c b w else w
      | _, _, _ => w
      end
  end.

(** The storage writes the script contains: a theme name under
    [theme], a state name under [sidebarState].  Effects that are not
    storage writes pass. *)
Definition script_write (ev : Effect) : Prop :=
  match ev with
  | ESetItem key value =>
      (key = "theme" ∧ ∃ v : Theme, value = theme_name v)
      ∨ (key = "sidebarState" ∧ ∃ st : SidebarState, value = state_name st)
  | _ => True
  end.

(** Nothing but the two keys of the script differs from the store
    [st], and every write so far is one of the script's. *)
Definition store_confined (st : gmap string string) (w : World) : Prop :=
  Forall script_write (trace w)
  ∧ ∀ key, key ≠ "theme" → key ≠ "sidebarState" →
      localStorage w !! key = st !! key.

(** The stored theme, when it is a non-empty string, is the rendered one. *)
Definition theme_in_step (w : World) : Prop :=
  truthy (stored_theme w) = true → rendered_theme w = stored_theme w.

(** The stored sidebar state, when it names a state, is the one both
    marker classes show. *)
Definition sidebar_in_step (s c : Handle) (w : World) : Prop :=
  ∀ st : SidebarState,
    stored_sidebarState w = Some (state_name st) → sidebar_in_state w s c st.

(** The checkbox is checked exactly when the page is rendered dark. *)
Definition checkbox_in_step (cb : Handle) (w : World) : Prop :=
  is_checked w cb = bool_decide (rendered_theme w = Some "dark").

(** ** Example pages *)

Definition element (id : string) : Element :=
  mkElement {[ "id" := id ]} [] false.

Definition bare_html : Element := mkElement ∅ [] false.

(** A dashboard page with every element the script looks for. *)
Definition dashboard : Document :=
  mkDocument bare_html
    [ element "theme-toggle-checkbox"; element "main-sidebar";
      element "main-container"; element "sidebar-toggle-button" ].

(** A page without the sidebar toggle button. *)
Definition no_button : Document :=
  mkDocument bare_html
    [ element "theme-toggle-checkbox"; element "main-sidebar";
      element "main-container" ].

(** The dashboard page with the theme checkbox rendered checked. *)
Definition dashboard_checked : Document :=
  mkDocument bare_html
    [ mkElement {[ "id" := "theme-toggle-checkbox" ]} [] true;
      element "main-sidebar"; element "main-container";
      element "sidebar-toggle-button" ].

(** A page rendered with the marker on the sidebar but not on the
    container. *)
Definition out_of_step : Document :=
  mkDocument bare_html
    [ element "theme-toggle-checkbox";
      mkElement {[ "id" := "main-sidebar" ]} ["is-collapsed"] false;
      element "main-container"; element "sidebar-toggle-button" ].

Definition prefers_dark : option (string → bool) :=
  Some (λ q, bool_decide (q = "(prefers-color-scheme: dark)")).

Definition prefers_light : option (string → bool) :=
  Some (λ _, false).
(** ** Facts about documents *)

Section dom_facts.
Implicit Types (d : Document) (w : World) (h : Handle) (e : Element).

Lemma nodes_update_node h f d :
  nodes (update_node h f d) = alter f h (nodes d).
Proof. by destruct h. Qed.

Lemma node_modify_node h f w h' :
  node (modify_node h f w) h' =
    if decide (h = h') then f <$> node w h' else node w h'.
Proof.
  unfold node, modify_node; cbn. rewrite nodes_update_node.
  case_decide as Hh.
  - subst h'. apply list_lookup_alter_eq.
  - by apply list_lookup_alter_ne.
Qed.

Lemma ids_update_node h f d :
  (∀ e, attributes (f e) !! "id" = attributes e !! "id") →
  ids (update_node h f d) = ids d.
Proof.
  intros Hf. unfold ids. rewrite nodes_update_node.
  apply list_eq; intros i. rewrite !list_lookup_fmap.
  destruct (decide (h = i)) as [->|Hne].
  - rewrite list_lookup_alter_eq. destruct (nodes d !! i); cbn; by rewrite ?Hf.
  - by rewrite list_lookup_alter_ne.
Qed.

Lemma find_by_id_ids d id :
  find_by_id d id = fst <$> list_find (λ o, o = Some id) (ids d).
Proof.
  unfold find_by_id, ids. rewrite list_find_fmap.
  by destruct (list_find _ (nodes d)) as [[? ?]|].
Qed.

Lemma find_by_id_same_ids d d' id :
  ids d' = ids d → find_by_id d' id = find_by_id d id.
Proof. intros H. by rewrite !find_by_id_ids, H. Qed.

Lemma find_by_id_Some d id h :
  find_by_id d id = Some h →
  ∃ e, nodes d !! h = Some e ∧ attributes e !! "id" = Some id.
Proof.
  unfold find_by_id. intros H.
  destruct (list_find _ (nodes d)) as [[i e]|] eqn:Hf; [|done].
  injection H as <-.
  apply list_find_Some in Hf as (? & ? & _). eauto.
Qed.
(** Handles obtained for different ids denote different elements. *)
Lemma find_by_id_inj d id1 id2 h :
  find_by_id d id1 = Some h → find_by_id d id2 = Some h → id1 = id2.
Proof.
  intros (e1 & H1 & Hid1)%find_by_id_Some (e2 & H2 & Hid2)%find_by_id_Some.
  congruence.
Qed.
End dom_facts.

(** ** Running the primitives *)

Section primitive_facts.
Implicit Types (d : Document) (w : World) (h : Handle) (e : Element).

Lemma valid_root d : valid d 0.
Proof. unfold valid; cbn; eauto. Qed.

Lemma valid_update_node h f d h' : valid (update_node h f d) h' ↔ valid d h'.
Proof.
  unfold valid. rewrite nodes_update_node, !lookup_lt_is_Some.
  by rewrite length_alter.
Qed.

Lemma valid_find_by_id d id h : find_by_id d id = Some h → valid d h.
Proof. intros (e & He & _)%find_by_id_Some. unfold valid; eauto. Qed.

Lemma valid_same_ids d d' h : ids d' = ids d → valid d h → valid d' h.
Proof.
  unfold valid. rewrite !lookup_lt_is_Some. intros Hids.
  apply (f_equal length) in Hids. unfold ids in Hids.
  rewrite !length_fmap in Hids. by rewrite Hids.
Qed.

Lemma js_bind_normal {A B} (m : JS A) (k : A → JS B) w a w' :
  m w = Normal a w' → js_bind m k w = k a w'.
Proof. unfold js_bind. by intros ->. Qed.

Lemma js_bind_assoc {A B C} (m : JS A) (k : A → JS B) (k' : B → JS C) w :
  js_bind (js_bind m k) k' w = js_bind m (λ a, js_bind (k a) k') w.
Proof. unfold js_bind. by destruct (m w). Qed.

Lemma js_bind_ret {A B} (a : A) (k : A → JS B) w :
  js_bind (js_ret a) k w = k a w.
Proof. done. Qed.

Lemma is_Some_Some_true {A} (x : A) : bool_decide (is_Some (Some x)) = true.
Proof. apply bool_decide_eq_true_2. eauto. Qed.

Lemma is_Some_None_false {A} : bool_decide (is_Some (@None A)) = false.
Proof. apply bool_decide_eq_false_2. by intros [? ?]. Qed.

Lemma bool_decide_Some_eq `{EqDecision A} (s t : A) :
  bool_decide (Some s = Some t) = bool_decide (s = t).
Proof. apply bool_decide_ext. naive_solver. Qed.

Lemma deref_valid h member w :
  valid (document w) h → deref (Some h) member w = Normal h w.
Proof. unfold valid, deref, node. by intros [e ->]. Qed.

Lemma deref_null member w :
  deref None member w =
    Throw (TypeError (String.append "Cannot read properties of null: " member)) w.
Proof. done. Qed.

Lemma getAttribute_valid h name w :
  valid (document w) h →
  getAttribute (Some h) name w = Normal (attribute_of w h name) w.
Proof.
  intros Hv. unfold getAttribute.
  by rewrite (js_bind_normal _ _ _ _ _ (deref_valid _ _ _ Hv)).
Qed.

Lemma setAttribute_valid h name value w :
  valid (document w) h →
  setAttribute (Some h) name value w = Normal tt (put_attribute h name value w).
Proof.
  intros Hv. unfold setAttribute.
  by rewrite (js_bind_normal _ _ _ _ _ (deref_valid _ _ _ Hv)).
Qed.

Lemma classList_add_valid h c w :
  valid (document w) h →
  classList_add (Some h) c w = Normal tt (put_class h c w).
Proof.
  intros Hv. unfold classList_add.
  by rewrite (js_bind_normal _ _ _ _ _ (deref_valid _ _ _ Hv)).
Qed.

Lemma classList_remove_valid h c w :
  valid (document w) h →
  classList_remove (Some h) c w = Normal tt (drop_class h c w).
Proof.
  intros Hv. unfold classList_remove.
  by rewrite (js_bind_normal _ _ _ _ _ (deref_valid _ _ _ Hv)).
Qed.

Lemma classList_contains_valid h c w :
  valid (document w) h →
  classList_contains (Some h) c w = Normal (has_class w h c) w.
Proof.
  intros Hv. unfold classList_contains.
  by rewrite (js_bind_normal _ _ _ _ _ (deref_valid _ _ _ Hv)).
Qed.

Lemma set_checked_valid h b w :
  valid (document w) h →
  set_checked (Some h) b w = Normal tt (put_checked h b w).
Proof.
  intros Hv. unfold set_checked.
  by rewrite (js_bind_normal _ _ _ _ _ (deref_valid _ _ _ Hv)).
Qed.

Lemma addEventListener_valid h type l w :
  valid (document w) h →
  addEventListener (Some h) type l w = Normal tt (put_listener h type l w).
Proof.
  intros Hv. unfold addEventListener.
  by rewrite (js_bind_normal _ _ _ _ _ (deref_valid _ _ _ Hv)).
Qed.
End primitive_facts.

(** Symbolic execution of a sequence of primitives on valid handles. *)
Ltac world_projections :=
  cbn [document localStorage matchMedia listeners trace
       log modify_node put_attribute put_class drop_class put_checked
       put_listener put_item].

Ltac valid_tac :=
  world_projections;
  rewrite ?valid_update_node;
  first [ assumption | apply valid_root | eauto using valid_find_by_id ].

Ltac js_step :=
  first
    [ erewrite js_bind_normal by
        first [ apply setAttribute_valid; valid_tac
              | apply getAttribute_valid; valid_tac
              | apply classList_add_valid; valid_tac
              | apply classList_remove_valid; valid_tac
              | apply classList_contains_valid; valid_tac
              | apply set_checked_valid; valid_tac
              | apply addEventListener_valid; valid_tac
              | reflexivity ]
    | rewrite setAttribute_valid by valid_tac
    | rewrite classList_add_valid by valid_tac
    | rewrite classList_remove_valid by valid_tac
    | rewrite set_checked_valid by valid_tac
    | rewrite addEventListener_valid by valid_tac ];
  cbv beta.

Ltac js_run :=
  repeat first
    [ rewrite js_bind_assoc
    | rewrite js_bind_ret
    | rewrite is_Some_Some_true
    | rewrite is_Some_None_false
    | progress cbn [andb orb negb]
    | js_step ].

(** ** What the script computes *)

Section runs.
Implicit Types (d : Document) (w : World) (h s c b : Handle).

Lemma toggleTheme_runs w : toggleTheme w = Normal tt (toggled w).
Proof.
  unfold toggleTheme, document_documentElement.
  js_step. js_step. reflexivity.
Qed.

Lemma collapseSidebar_runs s c b w :
  valid (document w) s → valid (document w) c → valid (document w) b →
  collapseSidebar (Some s) (Some c) (Some b) w = Normal tt (collapsed s c b w).
Proof.
  intros Hs Hc Hb. unfold collapseSidebar.
  do 4 js_step. reflexivity.
Qed.

Lemma expandSidebar_runs s c b w :
  valid (document w) s → valid (document w) c → valid (document w) b →
  expandSidebar (Some s) (Some c) (Some b) w = Normal tt (expanded s c b w).
Proof.
  intros Hs Hc Hb. unfold expandSidebar.
  do 4 js_step. reflexivity.
Qed.

Lemma sidebar_click_runs s c b w :
  valid (document w) s → valid (document w) c → valid (document w) b →
  sidebar_click (Some s) (Some c) (Some b) w = Normal tt (clicked s c b w).
Proof.
  intros Hs Hc Hb. unfold sidebar_click, clicked.
  js_step. destruct (has_class w s "is-collapsed").
  - by apply expandSidebar_runs.
  - by apply collapseSidebar_runs.
Qed.

(** Without its guard the sidebar code would fail on a missing element. *)
Lemma collapseSidebar_null (container toggleButton : Ref) w :
  collapseSidebar None container toggleButton w =
    Throw (TypeError "Cannot read properties of null: classList") w.
Proof. done. Qed.

Lemma theme_module_runs w : theme_module w = Normal tt (theme_loaded w).
Proof.
  unfold theme_module, theme_loaded, initial_theme, stored_theme,
    document_documentElement.
  unfold getElementById at 1. unfold localStorage_getItem at 1.
  unfold js_bind at 1 2. cbv beta iota.
  destruct (find_by_id (document w) "theme-toggle-checkbox") as [cb|] eqn:Hcb;
    [assert (valid (document w) cb) by eauto using valid_find_by_id|];
    (destruct (localStorage w !! "theme") as [t|] eqn:Ht;
       cbn [truthy to_DOMString];
       [rewrite ?bool_decide_Some_eq;
        destruct (bool_decide (t = "")) eqn:Hempty; cbn [negb];
        [|destruct (bool_decide (t = "dark")) eqn:Hdark]|]);
    unfold matchMedia_matches, system_prefers_dark; js_run;
    world_projections;
    try destruct (media_matches (matchMedia w) "(prefers-color-scheme: dark)");
    js_run; reflexivity.
Qed.

Lemma sidebar_module_runs w : sidebar_module w = Normal tt (sidebar_loaded w).
Proof.
  unfold sidebar_module, sidebar_loaded, stored_sidebarState.
  unfold getElementById. unfold js_bind at 1 2 3. cbv beta iota.
  destruct (find_by_id (document w) "main-sidebar") as [s|] eqn:Hs;
    destruct (find_by_id (document w) "main-container") as [c|] eqn:Hc;
    destruct (find_by_id (document w) "sidebar-toggle-button") as [b|] eqn:Hb;
    rewrite ?is_Some_Some_true, ?is_Some_None_false; cbn [negb orb];
    try reflexivity.
  assert (valid (document w) s) by eauto using valid_find_by_id.
  assert (valid (document w) c) by eauto using valid_find_by_id.
  assert (valid (document w) b) by eauto using valid_find_by_id.
  unfold localStorage_getItem. unfold js_bind at 1. cbv beta iota.
  destruct (bool_decide (localStorage w !! "sidebarState" = Some "collapsed"));
    cbv iota.
  - erewrite js_bind_normal by (by apply collapseSidebar_runs).
    cbv beta. by rewrite addEventListener_valid by (unfold collapsed; valid_tac).
  - js_run. reflexivity.
Qed.

Lemma load_runs w : load w = Normal tt (sidebar_loaded (theme_loaded w)).
Proof.
  unfold load. erewrite js_bind_normal by apply theme_module_runs.
  apply sidebar_module_runs.
Qed.
End runs.

(** ** How the world updates change what can be observed *)

Section observations.
Implicit Types (d : Document) (w : World) (h : Handle) (e : Element) (c : string).

Lemma node_put_attribute h name value w h' :
  node (put_attribute h name value w) h' =
    if decide (h = h') then with_attribute name value <$> node w h' else node w h'.
Proof. apply node_modify_node. Qed.

Lemma node_put_class h c w h' :
  node (put_class h c w) h' =
    if decide (h = h') then with_class c <$> node w h' else node w h'.
Proof. apply node_modify_node. Qed.

Lemma node_drop_class h c w h' :
  node (drop_class h c w) h' =
    if decide (h = h') then without_class c <$> node w h' else node w h'.
Proof. apply node_modify_node. Qed.

Lemma node_put_checked h v w h' :
  node (put_checked h v w) h' =
    if decide (h = h') then with_checked v <$> node w h' else node w h'.
Proof. apply node_modify_node. Qed.

Lemma node_put_item key value w h : node (put_item key value w) h = node w h.
Proof. done. Qed.

Lemma node_put_listener h' type l w h : node (put_listener h' type l w) h = node w h.
Proof. done. Qed.

Lemma node_log ev w h : node (log ev w) h = node w h.
Proof. done. Qed.

Lemma valid_node w h : valid (document w) h → ∃ e, node w h = Some e.
Proof. by intros [e He]; exists e. Qed.

(** *** Class tokens *)

Lemma token_add_elem c l : c ∈ token_add c l.
Proof.
  unfold token_add. case_bool_decide; [done|]. set_solver.
Qed.

Lemma token_add_mono c c' l : c' ∈ l → c' ∈ token_add c l.
Proof. unfold token_add. case_bool_decide; set_solver. Qed.


Lemma token_remove_elem c c' l : c' ∈ token_remove c l ↔ c' ≠ c ∧ c' ∈ l.
Proof. unfold token_remove. by rewrite list_elem_of_filter. Qed.

Lemma has_class_put_class_same h c w :
  valid (document w) h → has_class (put_class h c w) h c = true.
Proof.
  intros Hv. destruct (valid_node _ _ Hv) as [e He]. unfold has_class.
  rewrite node_put_class, decide_True by done. rewrite He; cbn.
  apply bool_decide_eq_true_2, token_add_elem.
Qed.

Lemma has_class_put_class_mono h c w h' c' :
  has_class w h' c' = true → has_class (put_class h c w) h' c' = true.
Proof.
  unfold has_class. rewrite node_put_class.
  case_decide; [subst h'|done].
  destruct (node w h) as [e|]; cbn; [|done].
  intros He%bool_decide_eq_true_1.
  by apply bool_decide_eq_true_2, token_add_mono.
Qed.

Lemma has_class_drop_class_same h c w : has_class (drop_class h c w) h c = false.
Proof.
  unfold has_class. rewrite node_drop_class, decide_True by done.
  destruct (node w h) as [e|]; cbn; [|done].
  apply bool_decide_eq_false_2. rewrite token_remove_elem. by intros [? _].
Qed.

Lemma has_class_drop_class_anti h c w h' c' :
  has_class w h' c' = false → has_class (drop_class h c w) h' c' = false.
Proof.
  unfold has_class. rewrite node_drop_class.
  case_decide; [subst h'|done].
  destruct (node w h) as [e|]; cbn; [|done].
  intros He%bool_decide_eq_false_1.
  apply bool_decide_eq_false_2. rewrite token_remove_elem. by intros [_ ?].
Qed.

Lemma has_class_put_attribute h name value w h' c :
  has_class (put_attribute h name value w) h' c = has_class w h' c.
Proof.
  unfold has_class. rewrite node_put_attribute.
  case_decide; [subst h'|done]. by destruct (node w h).
Qed.

Lemma has_class_put_checked h v w h' c :
  has_class (put_checked h v w) h' c = has_class w h' c.
Proof.
  unfold has_class. rewrite node_put_checked.
  case_decide; [subst h'|done]. by destruct (node w h).
Qed.

Lemma has_class_put_item key value w h c :
  has_class (put_item key value w) h c = has_class w h c.
Proof. done. Qed.

Lemma has_class_put_listener h' type l w h c :
  has_class (put_listener h' type l w) h c = has_class w h c.
Proof. done. Qed.

Lemma has_class_log ev w h c : has_class (log ev w) h c = has_class w h c.
Proof. done. Qed.

(** *** Attributes *)

Lemma attribute_of_put_attribute_same h name value w :
  valid (document w) h →
  attribute_of (put_attribute h name value w) h name = Some value.
Proof.
  intros Hv. destruct (valid_node _ _ Hv) as [e He]. unfold attribute_of.
  rewrite node_put_attribute, decide_True by done. rewrite He; cbn.
  apply lookup_insert_eq.
Qed.

Lemma attribute_of_put_attribute_other h name value w h' name' :
  name ≠ name' →
  attribute_of (put_attribute h name value w) h' name' = attribute_of w h' name'.
Proof.
  intros Hne. unfold attribute_of. rewrite node_put_attribute.
  case_decide; [subst h'|done].
  destruct (node w h) as [e|]; cbn; [|done]. by apply lookup_insert_ne.
Qed.

Lemma attribute_of_put_class h c w h' name :
  attribute_of (put_class h c w) h' name = attribute_of w h' name.
Proof.
  unfold attribute_of. rewrite node_put_class.
  case_decide; [subst h'|done]. by destruct (node w h).
Qed.

Lemma attribute_of_drop_class h c w h' name :
  attribute_of (drop_class h c w) h' name = attribute_of w h' name.
Proof.
  unfold attribute_of. rewrite node_drop_class.
  case_decide; [subst h'|done]. by destruct (node w h).
Qed.

Lemma attribute_of_put_checked h v w h' name :
  attribute_of (put_checked h v w) h' name = attribute_of w h' name.
Proof.
  unfold attribute_of. rewrite node_put_checked.
  case_decide; [subst h'|done]. by destruct (node w h).
Qed.

Lemma attribute_of_put_item key value w h name :
  attribute_of (put_item key value w) h name = attribute_of w h name.
Proof. done. Qed.

Lemma attribute_of_put_listener h' type l w h name :
  attribute_of (put_listener h' type l w) h name = attribute_of w h name.
Proof. done. Qed.

Lemma attribute_of_log ev w h name :
  attribute_of (log ev w) h name = attribute_of w h name.
Proof. done. Qed.

Lemma rendered_theme_attribute w : rendered_theme w = attribute_of w 0 "data-theme".
Proof. done. Qed.

(** *** The [checked] property *)

Lemma is_checked_put_checked_same h v w :
  valid (document w) h → is_checked (put_checked h v w) h = v.
Proof.
  intros Hv. destruct (valid_node _ _ Hv) as [e He]. unfold is_checked.
  rewrite node_put_checked, decide_True by done. by rewrite He.
Qed.

Lemma is_checked_put_checked_other h v w h' :
  h ≠ h' → is_checked (put_checked h v w) h' = is_checked w h'.
Proof.
  intros Hne. unfold is_checked. by rewrite node_put_checked, decide_False.
Qed.

Lemma is_checked_put_attribute h name value w h' :
  is_checked (put_attribute h name value w) h' = is_checked w h'.
Proof.
  unfold is_checked. rewrite node_put_attribute.
  case_decide; [subst h'|done]. by destruct (node w h).
Qed.

Lemma is_checked_put_class h c w h' :
  is_checked (put_class h c w) h' = is_checked w h'.
Proof.
  unfold is_checked. rewrite node_put_class.
  case_decide; [subst h'|done]. by destruct (node w h).
Qed.

Lemma is_checked_drop_class h c w h' :
  is_checked (drop_class h c w) h' = is_checked w h'.
Proof.
  unfold is_checked. rewrite node_drop_class.
  case_decide; [subst h'|done]. by destruct (node w h).
Qed.

Lemma is_checked_put_item key value w h :
  is_checked (put_item key value w) h = is_checked w h.
Proof. done. Qed.

Lemma is_checked_put_listener h' type l w h :
  is_checked (put_listener h' type l w) h = is_checked w h.
Proof. done. Qed.

Lemma is_checked_log ev w h : is_checked (log ev w) h = is_checked w h.
Proof. done. Qed.

(** *** Identifiers

    The script never writes an [id] attribute, so [getElementById]
    answers the same before and after every update. *)

Lemma ids_put_attribute h name value w :
  name ≠ "id" → ids (document (put_attribute h name value w)) = ids (document w).
Proof.
  intros Hne. apply ids_update_node. intros e. cbn. by apply lookup_insert_ne.
Qed.

Lemma ids_put_class h c w : ids (document (put_class h c w)) = ids (document w).
Proof. by apply ids_update_node. Qed.

Lemma ids_drop_class h c w : ids (document (drop_class h c w)) = ids (document w).
Proof. by apply ids_update_node. Qed.

Lemma ids_put_checked h v w : ids (document (put_checked h v w)) = ids (document w).
Proof. by apply ids_update_node. Qed.

Lemma ids_put_item key value w : ids (document (put_item key value w)) = ids (document w).
Proof. done. Qed.

Lemma ids_put_listener h type l w :
  ids (document (put_listener h type l w)) = ids (document w).
Proof. done. Qed.

Lemma ids_log ev w : ids (document (log ev w)) = ids (document w).
Proof. done. Qed.

Lemma ids_flip_checked h w :
  ids (document (modify_node h flip_checked w)) = ids (document w).
Proof. by apply ids_update_node. Qed.
End observations.

(** Push an observation through the updates that do not affect it. *)
Ltac frame_tac :=
  repeat first
    [ rewrite has_class_put_attribute | rewrite has_class_put_checked
    | rewrite has_class_put_item | rewrite has_class_put_listener
    | rewrite has_class_log
    | rewrite attribute_of_put_class | rewrite attribute_of_drop_class
    | rewrite attribute_of_put_checked | rewrite attribute_of_put_item
    | rewrite attribute_of_put_listener | rewrite attribute_of_log
    | rewrite attribute_of_put_attribute_other by done
    | rewrite is_checked_put_attribute | rewrite is_checked_put_class
    | rewrite is_checked_drop_class | rewrite is_checked_put_item
    | rewrite is_checked_put_listener | rewrite is_checked_log ].

Ltac ids_tac :=
  repeat first
    [ rewrite ids_put_item | rewrite ids_put_listener | rewrite ids_log
    | rewrite ids_put_attribute by done
    | rewrite ids_put_class | rewrite ids_drop_class | rewrite ids_put_checked ];
  try done.

(** ** Frame properties of the script's functions *)

Section frames.
Implicit Types (d : Document) (w : World) (h s c b : Handle).

Lemma ids_toggled w : ids (document (toggled w)) = ids (document w).
Proof. unfold toggled. ids_tac. Qed.

Lemma ids_collapsed s c b w : ids (document (collapsed s c b w)) = ids (document w).
Proof. unfold collapsed. ids_tac. Qed.

Lemma ids_expanded s c b w : ids (document (expanded s c b w)) = ids (document w).
Proof. unfold expanded. ids_tac. Qed.

Lemma ids_clicked s c b w : ids (document (clicked s c b w)) = ids (document w).
Proof.
  unfold clicked. destruct (has_class _ _ _); [apply ids_expanded|apply ids_collapsed].
Qed.

Lemma ids_theme_loaded w : ids (document (theme_loaded w)) = ids (document w).
Proof.
  unfold theme_loaded.
  destruct (find_by_id (document w) _), (initial_theme w);
    try case_bool_decide; ids_tac.
Qed.

Lemma listeners_clicked s c b w : listeners (clicked s c b w) = listeners w.
Proof.
  unfold clicked, expanded, collapsed.
  destruct (has_class _ _ _); by world_projections.
Qed.

Lemma listeners_theme_loaded w :
  listeners (theme_loaded w) = listeners w ++ theme_listeners (document w).
Proof.
  unfold theme_loaded, theme_listeners.
  destruct (find_by_id (document w) _), (initial_theme w); try case_bool_decide;
    world_projections; by rewrite ?app_nil_r.
Qed.

Lemma listeners_sidebar_loaded w :
  listeners (sidebar_loaded w) = listeners w ++ sidebar_listeners (document w).
Proof.
  unfold sidebar_loaded, sidebar_listeners.
  destruct (find_by_id (document w) "main-sidebar"),
    (find_by_id (document w) "main-container"),
    (find_by_id (document w) "sidebar-toggle-button"); rewrite ?app_nil_r; try done.
  case_bool_decide; unfold collapsed; by world_projections.
Qed.

Lemma ids_sidebar_loaded w : ids (document (sidebar_loaded w)) = ids (document w).
Proof.
  unfold sidebar_loaded.
  destruct (find_by_id (document w) "main-sidebar"),
    (find_by_id (document w) "main-container"),
    (find_by_id (document w) "sidebar-toggle-button"); try done.
  case_bool_decide; ids_tac. by rewrite ids_collapsed.
Qed.

Lemma theme_listeners_same_ids d d' :
  ids d' = ids d → theme_listeners d' = theme_listeners d.
Proof. intros H. unfold theme_listeners. by rewrite (find_by_id_same_ids _ _ _ H). Qed.

Lemma sidebar_listeners_same_ids d d' :
  ids d' = ids d → sidebar_listeners d' = sidebar_listeners d.
Proof. intros H. unfold sidebar_listeners. by rewrite !(find_by_id_same_ids _ _ _ H). Qed.

(** Loading establishes the invariant. *)
Lemma loaded_after_load d st mm :
  loaded d (sidebar_loaded (theme_loaded (page d st mm))).
Proof.
  split.
  - by rewrite ids_sidebar_loaded, ids_theme_loaded.
  - rewrite listeners_sidebar_loaded, listeners_theme_loaded.
    by rewrite (sidebar_listeners_same_ids _ _ (ids_theme_loaded _)).
Qed.
End frames.

(** ** What the sidebar operations establish and what they leave alone *)

Section sidebar_facts.
Implicit Types (d : Document) (w : World) (h s c b : Handle).

Lemma valid_put_class h cl w h' :
  valid (document (put_class h cl w)) h' ↔ valid (document w) h'.
Proof. apply valid_update_node. Qed.

Lemma valid_drop_class h cl w h' :
  valid (document (drop_class h cl w)) h' ↔ valid (document w) h'.
Proof. apply valid_update_node. Qed.

Lemma valid_put_attribute h name value w h' :
  valid (document (put_attribute h name value w)) h' ↔ valid (document w) h'.
Proof. apply valid_update_node. Qed.

Lemma collapsed_classes s c b w :
  valid (document w) s → valid (document w) c →
  has_class (collapsed s c b w) s "is-collapsed" = true
  ∧ has_class (collapsed s c b w) c "is-collapsed" = true.
Proof.
  intros Hs Hc. unfold collapsed. frame_tac. split.
  - by apply has_class_put_class_mono, has_class_put_class_same.
  - apply has_class_put_class_same. by apply valid_put_class.
Qed.

Lemma expanded_classes s c b w :
  has_class (expanded s c b w) s "is-collapsed" = false
  ∧ has_class (expanded s c b w) c "is-collapsed" = false.
Proof.
  unfold expanded. frame_tac. split.
  - apply has_class_drop_class_anti, has_class_drop_class_same.
  - apply has_class_drop_class_same.
Qed.

Lemma collapsed_aria s c b w :
  valid (document w) b →
  attribute_of (collapsed s c b w) b "aria-expanded" = Some "false"
  ∧ attribute_of (collapsed s c b w) b "aria-label" = Some "Expand sidebar".
Proof.
  intros Hb. unfold collapsed. frame_tac. split.
  - apply attribute_of_put_attribute_same. by rewrite !valid_put_class.
  - apply attribute_of_put_attribute_same.
    by rewrite valid_put_attribute, !valid_put_class.
Qed.

Lemma expanded_aria s c b w :
  valid (document w) b →
  attribute_of (expanded s c b w) b "aria-expanded" = Some "true"
  ∧ attribute_of (expanded s c b w) b "aria-label" = Some "Collapse sidebar".
Proof.
  intros Hb. unfold expanded. frame_tac. split.
  - apply attribute_of_put_attribute_same. by rewrite !valid_drop_class.
  - apply attribute_of_put_attribute_same.
    by rewrite valid_put_attribute, !valid_drop_class.
Qed.

Lemma collapsed_stored s c b w :
  stored_sidebarState (collapsed s c b w) = Some "collapsed"
  ∧ stored_theme (collapsed s c b w) = stored_theme w.
Proof.
  unfold collapsed, stored_sidebarState, stored_theme. world_projections.
  by rewrite lookup_insert_eq, lookup_insert_ne.
Qed.

Lemma expanded_stored s c b w :
  stored_sidebarState (expanded s c b w) = Some "expanded"
  ∧ stored_theme (expanded s c b w) = stored_theme w.
Proof.
  unfold expanded, stored_sidebarState, stored_theme. world_projections.
  by rewrite lookup_insert_eq, lookup_insert_ne.
Qed.

Lemma collapsed_frame s c b w h name :
  name ≠ "aria-expanded" → name ≠ "aria-label" →
  attribute_of (collapsed s c b w) h name = attribute_of w h name
  ∧ is_checked (collapsed s c b w) h = is_checked w h.
Proof.
  intros H1 H2. unfold collapsed. by frame_tac.
Qed.

Lemma expanded_frame s c b w h name :
  name ≠ "aria-expanded" → name ≠ "aria-label" →
  attribute_of (expanded s c b w) h name = attribute_of w h name
  ∧ is_checked (expanded s c b w) h = is_checked w h.
Proof.
  intros H1 H2. unfold expanded. by frame_tac.
Qed.
End sidebar_facts.

(** ** User events on a loaded page *)

Section events.
Implicit Types (d : Document) (w : World) (h s c b : Handle).

Lemma listeners_for_app h type t1 t2 :
  listeners_for h type (t1 ++ t2) = listeners_for h type t1 ++ listeners_for h type t2.
Proof. apply omap_app. Qed.

Lemma listeners_for_theme d h type :
  listeners_for h type (theme_listeners d) =
    if bool_decide (find_by_id d "theme-toggle-checkbox" = Some h)
       && bool_decide (type = "change")
    then [ToggleThemeListener] else [].
Proof.
  unfold theme_listeners.
  destruct (find_by_id d "theme-toggle-checkbox") as [cb|]; cbn; [|done].
  rewrite (bool_decide_ext (Some cb = Some h) (cb = h)) by naive_solver.
  rewrite (bool_decide_ext ("change" = type) (type = "change")) by naive_solver.
  by destruct (bool_decide (cb = h)), (bool_decide (type = "change")).
Qed.

Lemma listeners_for_sidebar d h type s c b :
  sidebar_handles d s c b →
  listeners_for h type (sidebar_listeners d) =
    if bool_decide (b = h) && bool_decide (type = "click")
    then [SidebarClickListener (Some s) (Some c) (Some b)] else [].
Proof.
  intros (Hs & Hc & Hb). unfold sidebar_listeners. rewrite Hs, Hc, Hb. cbn.
  rewrite (bool_decide_ext ("click" = type) (type = "click")) by naive_solver.
  by destruct (bool_decide (b = h)), (bool_decide (type = "click")).
Qed.

Lemma listeners_for_sidebar_own d h type :
  Forall (own_listener d) (listeners_for h type (sidebar_listeners d)).
Proof.
  destruct (find_by_id d "main-sidebar") as [s|] eqn:Hs;
    destruct (find_by_id d "main-container") as [c|] eqn:Hc;
    destruct (find_by_id d "sidebar-toggle-button") as [b|] eqn:Hb;
    try (unfold sidebar_listeners; rewrite ?Hs, ?Hc, ?Hb; by constructor).
  rewrite (listeners_for_sidebar d h type s c b) by done.
  destruct (_ && _); repeat constructor.
  by exists s, c, b.
Qed.

Lemma listeners_for_own d h type :
  Forall (own_listener d)
    (listeners_for h type (theme_listeners d ++ sidebar_listeners d)).
Proof.
  rewrite listeners_for_app, listeners_for_theme. apply Forall_app. split.
  - destruct (_ && _); by repeat constructor.
  - apply listeners_for_sidebar_own.
Qed.

Lemma loaded_valid d w id h :
  loaded d w → find_by_id d id = Some h → valid (document w) h.
Proof.
  intros [Hids _] Hh. eapply valid_same_ids; [done|]. by eapply valid_find_by_id.
Qed.

Lemma loaded_toggled d w : loaded d w → loaded d (toggled w).
Proof. intros [Hids Hl]. split; [by rewrite ids_toggled|done]. Qed.

Lemma loaded_clicked d s c b w : loaded d w → loaded d (clicked s c b w).
Proof.
  intros [Hids Hl]. split; [by rewrite ids_clicked|by rewrite listeners_clicked].
Qed.

Lemma loaded_flip_checked d h w : loaded d w → loaded d (modify_node h flip_checked w).
Proof. intros [Hids Hl]. split; [by rewrite ids_flip_checked|done]. Qed.

Lemma run_listener_loaded d w l :
  loaded d w → own_listener d l →
  ∃ w', run_listener l w = Normal tt w' ∧ loaded d w'.
Proof.
  intros Hw Hl. destruct l as [|rs rc rb]; cbn [run_listener].
  - exists (toggled w). split; [apply toggleTheme_runs|by apply loaded_toggled].
  - destruct Hl as (s & c & b & -> & -> & -> & Hs & Hc & Hb).
    exists (clicked s c b w). split; [|by apply loaded_clicked].
    apply sidebar_click_runs; by eapply loaded_valid.
Qed.

Lemma run_listeners_loaded d ls :
  Forall (own_listener d) ls →
  ∀ w, loaded d w → ∃ w', run_listeners ls w = Normal tt w' ∧ loaded d w'.
Proof.
  induction 1 as [|l ls Hl _ IH]; intros w Hw; cbn [run_listeners].
  - by exists w.
  - destruct (run_listener_loaded d w l Hw Hl) as (w1 & Hrun & Hw1).
    rewrite (js_bind_normal _ _ _ _ _ Hrun). by apply IH.
Qed.

Lemma dispatchEvent_loaded d h type w :
  loaded d w → ∃ w', dispatchEvent h type w = Normal tt w' ∧ loaded d w'.
Proof.
  intros Hw. unfold dispatchEvent.
  apply run_listeners_loaded; [|done].
  destruct Hw as [_ ->]. apply listeners_for_own.
Qed.

(** No user event throws, and none changes what [loaded] fixes. *)
Lemma user_event_loaded d ev w :
  loaded d w → ∃ w', user_event ev w = Normal tt w' ∧ loaded d w'.
Proof.
  intros Hw. destruct ev as [h|h]; cbn [user_event].
  - unfold js_bind. apply dispatchEvent_loaded. by apply loaded_flip_checked.
  - by apply dispatchEvent_loaded.
Qed.

Lemma user_events_loaded d evs :
  ∀ w, loaded d w → ∃ w', user_events evs w = Normal tt w' ∧ loaded d w'.
Proof.
  induction evs as [|ev evs IH]; intros w Hw; cbn [user_events].
  - by exists w.
  - destruct (user_event_loaded d ev w Hw) as (w1 & Hrun & Hw1).
    rewrite (js_bind_normal _ _ _ _ _ Hrun). by apply IH.
Qed.

(** A change of the theme checkbox runs [toggleTheme], once. *)
Lemma change_checkbox_runs d w cb :
  loaded d w → find_by_id d "theme-toggle-checkbox" = Some cb →
  user_event (Change cb) w = Normal tt (toggled (modify_node cb flip_checked w)).
Proof.
  intros [Hids Hl] Hcb. cbn [user_event]. unfold js_bind, dispatchEvent.
  world_projections. rewrite Hl, listeners_for_app, listeners_for_theme, Hcb.
  rewrite !bool_decide_eq_true_2 by done. cbn [andb].
  assert (listeners_for cb "change" (sidebar_listeners d) = []) as ->.
  { destruct (find_by_id d "main-sidebar") as [s|] eqn:Hs;
      destruct (find_by_id d "main-container") as [c|] eqn:Hc;
      destruct (find_by_id d "sidebar-toggle-button") as [b|] eqn:Hb;
      try (unfold sidebar_listeners; rewrite ?Hs, ?Hc, ?Hb; done).
    rewrite (listeners_for_sidebar d cb "change" s c b) by done.
    by rewrite andb_false_r. }
  cbn [app run_listeners run_listener].
  by rewrite (js_bind_normal _ _ _ _ _ (toggleTheme_runs _)).
Qed.

(** A click on the toggle button runs the sidebar listener, once. *)
Lemma click_button_runs d w s c b :
  loaded d w → sidebar_handles d s c b →
  user_event (Click b) w = Normal tt (clicked s c b w).
Proof.
  intros Hw Hh. pose proof Hw as [Hids Hl]. cbn [user_event]. unfold dispatchEvent.
  rewrite Hl, listeners_for_app, listeners_for_theme.
  rewrite andb_false_r.
  rewrite (listeners_for_sidebar d b "click" s c b) by done.
  rewrite !bool_decide_eq_true_2 by done. cbn [andb app run_listeners run_listener].
  destruct Hh as (Hs & Hc & Hb).
  erewrite js_bind_normal; [done|].
  apply sidebar_click_runs; by eapply loaded_valid.
Qed.
End events.

(** ** What the theme functions establish and what they leave alone *)

Section theme_facts.
Implicit Types (d : Document) (w : World) (h cb : Handle).

Lemma rendered_theme_toggled w : rendered_theme (toggled w) = Some (toggled_theme w).
Proof.
  unfold toggled. rewrite rendered_theme_attribute. frame_tac.
  apply attribute_of_put_attribute_same, valid_root.
Qed.

Lemma stored_theme_toggled w : stored_theme (toggled w) = Some (toggled_theme w).
Proof. unfold toggled, stored_theme. world_projections. apply lookup_insert_eq. Qed.

Lemma trace_toggled w :
  trace (toggled w) =
    trace w ++ [ ESetAttribute 0 "data-theme" (toggled_theme w);
                 ESetItem "theme" (toggled_theme w) ].
Proof. unfold toggled. world_projections. by rewrite <- app_assoc. Qed.

Lemma toggled_theme_cases w :
  toggled_theme w = if bool_decide (rendered_theme w = Some "dark") then "light" else "dark".
Proof.
  unfold toggled_theme, or_else.
  destruct (rendered_theme w) as [v|]; [|done].
  rewrite bool_decide_Some_eq.
  destruct (bool_decide (v = "")) eqn:Hv; [|done].
  apply bool_decide_eq_true_1 in Hv as ->. done.
Qed.

Lemma rendered_theme_theme_loaded w :
  rendered_theme (theme_loaded w) =
    match initial_theme w with Some t => Some t | None => rendered_theme w end.
Proof.
  unfold theme_loaded. rewrite !rendered_theme_attribute.
  destruct (find_by_id (document w) _) as [cb|], (initial_theme w) as [t|];
    try case_bool_decide; frame_tac;
    try done; apply attribute_of_put_attribute_same, valid_root.
Qed.

Lemma is_checked_theme_loaded w h :
  is_checked (theme_loaded w) h =
    is_checked w h
    || (bool_decide (find_by_id (document w) "theme-toggle-checkbox" = Some h)
        && bool_decide (initial_theme w = Some "dark")).
Proof.
  unfold theme_loaded.
  destruct (find_by_id (document w) _) as [cb|] eqn:Hcb.
  2: { destruct (initial_theme w); frame_tac; by rewrite orb_false_r. }
  assert (valid (document w) cb) as Hv by eauto using valid_find_by_id.
  destruct (initial_theme w) as [t|]; frame_tac.
  2: { by rewrite andb_false_r, orb_false_r. }
  destruct (decide (t = "dark")) as [->|Ht].
  2: { rewrite (bool_decide_eq_false_2 (t = "dark")) by done.
       rewrite (bool_decide_eq_false_2 (Some t = Some "dark")) by congruence.
       frame_tac. by rewrite andb_false_r, orb_false_r. }
  rewrite (bool_decide_eq_true_2 ("dark" = "dark")) by done.
  rewrite (bool_decide_eq_true_2 (Some "dark" = Some "dark")) by done.
  rewrite andb_true_r. destruct (decide (cb = h)) as [->|Hh].
  - rewrite (bool_decide_eq_true_2 (Some h = Some h)) by done.
    rewrite is_checked_put_checked_same, orb_true_r; [done|].
    by rewrite valid_put_attribute.
  - rewrite (bool_decide_eq_false_2 (Some cb = Some h)) by congruence.
    rewrite is_checked_put_checked_other by done. frame_tac.
    by rewrite orb_false_r.
Qed.

Lemma localStorage_theme_loaded w : localStorage (theme_loaded w) = localStorage w.
Proof.
  unfold theme_loaded.
  by destruct (find_by_id (document w) _), (initial_theme w); try case_bool_decide.
Qed.


Lemma theme_loaded_frame w h cl name :
  name ≠ "data-theme" →
  has_class (theme_loaded w) h cl = has_class w h cl
  ∧ attribute_of (theme_loaded w) h name = attribute_of w h name.
Proof.
  intros Hne. unfold theme_loaded.
  by destruct (find_by_id (document w) _), (initial_theme w);
    try case_bool_decide; frame_tac.
Qed.

(** The effects of the theme initialisation, after those already
    performed: one storage read, then DOM writes only. *)
Lemma trace_theme_loaded w :
  ∃ evs, trace (theme_loaded w) = trace w ++ EGetItem "theme" :: evs
         ∧ Forall (λ ev, writes_storage ev = false) evs
         ∧ (Exists (λ ev, sets_checked ev = true) evs ↔
              is_Some (find_by_id (document w) "theme-toggle-checkbox")
              ∧ initial_theme w = Some "dark").
Proof.
  unfold theme_loaded.
  destruct (find_by_id (document w) _) as [cb|], (initial_theme w) as [t|];
    try case_bool_decide; world_projections;
    rewrite <- ?app_assoc; cbn [app];
    eexists; (split; [reflexivity|]); (split; [by repeat constructor|]);
    rewrite ?Exists_cons, ?Exists_nil; cbn [sets_checked]; subst;
    naive_solver.
Qed.
End theme_facts.

(** ** What the sidebar initialisation establishes and what it leaves alone *)

Section sidebar_init_facts.
Implicit Types (d : Document) (w : World) (h s c b : Handle).

Lemma sidebar_loaded_present w s c b :
  sidebar_handles (document w) s c b →
  sidebar_loaded w =
    put_listener b "click" (SidebarClickListener (Some s) (Some c) (Some b))
      (if bool_decide (stored_sidebarState w = Some "collapsed")
       then collapsed s c b (log (EGetItem "sidebarState") w)
       else log (EGetItem "sidebarState") w).
Proof. intros (Hs & Hc & Hb). unfold sidebar_loaded. by rewrite Hs, Hc, Hb. Qed.

Lemma sidebar_loaded_absent w :
  (¬ ∃ s c b, sidebar_handles (document w) s c b) → sidebar_loaded w = w.
Proof.
  intros Hno. unfold sidebar_loaded.
  destruct (find_by_id (document w) "main-sidebar") as [s|] eqn:Hs; [|done].
  destruct (find_by_id (document w) "main-container") as [c|] eqn:Hc; [|done].
  destruct (find_by_id (document w) "sidebar-toggle-button") as [b|] eqn:Hb; [|done].
  destruct Hno. by exists s, c, b.
Qed.

Lemma sidebar_handles_dec d :
  (∃ s c b, sidebar_handles d s c b) ∨ (¬ ∃ s c b, sidebar_handles d s c b).
Proof.
  unfold sidebar_handles.
  destruct (find_by_id d "main-sidebar") as [s|];
    [|right; by intros (? & ? & ? & ? & _)].
  destruct (find_by_id d "main-container") as [c|];
    [|right; by intros (? & ? & ? & _ & ? & _)].
  destruct (find_by_id d "sidebar-toggle-button") as [b|];
    [|right; by intros (? & ? & ? & _ & _ & ?)].
  left. by exists s, c, b.
Qed.

Lemma localStorage_sidebar_loaded w : localStorage (sidebar_loaded w) = localStorage w.
Proof.
  destruct (sidebar_handles_dec (document w)) as [(s & c & b & Hh)|Hno];
    [|by rewrite sidebar_loaded_absent].
  rewrite (sidebar_loaded_present w s c b Hh).
  case_bool_decide as Hst; [|done].
  unfold collapsed. world_projections. by apply insert_id.
Qed.

Lemma sidebar_loaded_frame w h name :
  name ≠ "aria-expanded" → name ≠ "aria-label" →
  attribute_of (sidebar_loaded w) h name = attribute_of w h name
  ∧ is_checked (sidebar_loaded w) h = is_checked w h.
Proof.
  intros H1 H2.
  destruct (sidebar_handles_dec (document w)) as [(s & c & b & Hh)|Hno];
    [|by rewrite sidebar_loaded_absent].
  rewrite (sidebar_loaded_present w s c b Hh). frame_tac.
  case_bool_decide; [|done].
  destruct (collapsed_frame s c b (log (EGetItem "sidebarState") w) h name)
    as [-> ->]; [done..|]. by frame_tac.
Qed.

Lemma rendered_theme_sidebar_loaded w :
  rendered_theme (sidebar_loaded w) = rendered_theme w.
Proof. rewrite !rendered_theme_attribute. by apply sidebar_loaded_frame. Qed.

Lemma sidebar_handles_theme_loaded w s c b :
  sidebar_handles (document w) s c b →
  sidebar_handles (document (theme_loaded w)) s c b.
Proof.
  unfold sidebar_handles.
  by rewrite !(find_by_id_same_ids _ _ _ (ids_theme_loaded w)).
Qed.

(** The effects of the sidebar initialisation when all three elements
    are present. *)
Lemma trace_sidebar_loaded w s c b :
  sidebar_handles (document w) s c b →
  trace (sidebar_loaded w) =
    (trace w ++ [EGetItem "sidebarState"])
    ++ (if bool_decide (stored_sidebarState w = Some "collapsed")
        then [ EClassAdd s "is-collapsed"; EClassAdd c "is-collapsed";
               ESetAttribute b "aria-expanded" "false";
               ESetAttribute b "aria-label" "Expand sidebar";
               ESetItem "sidebarState" "collapsed" ]
        else [])
    ++ [EAddEventListener b "click"].
Proof.
  intros Hh. rewrite (sidebar_loaded_present w s c b Hh).
  case_bool_decide; unfold collapsed; world_projections;
    by rewrite <- ?app_assoc.
Qed.
End sidebar_init_facts.

(** ** Which effects touch the [theme] key *)

Section theme_key.
Implicit Types (d : Document) (w : World) (h s c b : Handle).

Lemma no_write_no_theme_write evs :
  Forall (λ ev, writes_storage ev = false) evs → no_theme_write evs.
Proof. intros H. eapply Forall_impl; [done|]. by intros []. Qed.

Lemma no_theme_write_theme_loaded w :
  no_theme_write (trace w) → no_theme_write (trace (theme_loaded w)).
Proof.
  intros Hw. destruct (trace_theme_loaded w) as (evs & -> & Hevs & _).
  apply Forall_app. split; [done|]. constructor; [done|].
  by apply no_write_no_theme_write.
Qed.

Lemma no_theme_write_collapsed s c b w :
  no_theme_write (trace w) → no_theme_write (trace (collapsed s c b w)).
Proof.
  intros Hw. unfold collapsed. world_projections.
  rewrite <- !app_assoc. apply Forall_app. split; [done|].
  by repeat constructor.
Qed.

Lemma no_theme_write_expanded s c b w :
  no_theme_write (trace w) → no_theme_write (trace (expanded s c b w)).
Proof.
  intros Hw. unfold expanded. world_projections.
  rewrite <- !app_assoc. apply Forall_app. split; [done|].
  by repeat constructor.
Qed.

Lemma no_theme_write_sidebar_loaded w :
  no_theme_write (trace w) → no_theme_write (trace (sidebar_loaded w)).
Proof.
  intros Hw.
  destruct (sidebar_handles_dec (document w)) as [(s & c & b & Hh)|Hno];
    [|by rewrite sidebar_loaded_absent].
  rewrite (trace_sidebar_loaded w s c b Hh).
  repeat (apply Forall_app; split); try done; [by repeat constructor| |].
  - case_bool_decide; by repeat constructor.
  - by repeat constructor.
Qed.

Lemma stored_theme_sidebar_loaded w :
  stored_theme (sidebar_loaded w) = stored_theme w.
Proof. unfold stored_theme. by rewrite localStorage_sidebar_loaded. Qed.

Lemma theme_untouched_clicked d v s c b w :
  theme_untouched d v w → theme_untouched d v (clicked s c b w).
Proof.
  intros (Hl & Hv & Htr). split; [by apply loaded_clicked|].
  unfold clicked. destruct (has_class w s "is-collapsed").
  - destruct (expanded_stored s c b w) as [_ ->].
    split; [done|]. by apply no_theme_write_expanded.
  - destruct (collapsed_stored s c b w) as [_ ->].
    split; [done|]. by apply no_theme_write_collapsed.
Qed.

Lemma listeners_for_click d h :
  listeners_for h "click" (theme_listeners d ++ sidebar_listeners d) =
    listeners_for h "click" (sidebar_listeners d).
Proof.
  rewrite listeners_for_app, listeners_for_theme.
  by rewrite andb_false_r.
Qed.

Lemma click_theme_untouched d v h w :
  theme_untouched d v w →
  ∃ w', user_event (Click h) w = Normal tt w' ∧ theme_untouched d v w'.
Proof.
  intros Hw. pose proof Hw as ([Hids Hl] & _ & _).
  cbn [user_event]. unfold dispatchEvent. rewrite Hl, listeners_for_click.
  destruct (sidebar_handles_dec d) as [(s & c & b & Hh)|Hno].
  - rewrite (listeners_for_sidebar d h "click" s c b Hh).
    rewrite (bool_decide_eq_true_2 ("click" = "click")), andb_true_r by done.
    case_bool_decide; cbn [run_listeners run_listener]; [|by exists w].
    exists (clicked s c b w). split; [|by apply theme_untouched_clicked].
    destruct Hh as (Hs & Hc & Hb), Hw as (Hld & _).
    erewrite js_bind_normal; [done|].
    apply sidebar_click_runs; by eapply loaded_valid.
  - assert (sidebar_listeners d = []) as ->; [|by exists w].
    unfold sidebar_listeners.
    destruct (find_by_id d "main-sidebar") as [s|] eqn:Hs; [|done].
    destruct (find_by_id d "main-container") as [c|] eqn:Hc; [|done].
    destruct (find_by_id d "sidebar-toggle-button") as [b|] eqn:Hb; [|done].
    destruct Hno. by exists s, c, b.
Qed.

Lemma clicks_theme_untouched d v hs :
  ∀ w, theme_untouched d v w →
  ∃ w', user_events (Click <$> hs) w = Normal tt w' ∧ theme_untouched d v w'.
Proof.
  induction hs as [|h hs IH]; intros w Hw; cbn [fmap list_fmap user_events].
  - by exists w.
  - destruct (click_theme_untouched d v h w Hw) as (w1 & Hrun & Hw1).
    rewrite (js_bind_normal _ _ _ _ _ Hrun). by apply IH.
Qed.

Lemma theme_untouched_after_load d st mm :
  theme_untouched d (st !! "theme") (sidebar_loaded (theme_loaded (page d st mm))).
Proof.
  split; [apply loaded_after_load|]. split.
  - rewrite stored_theme_sidebar_loaded. unfold stored_theme.
    by rewrite localStorage_theme_loaded.
  - apply no_theme_write_sidebar_loaded, no_theme_write_theme_loaded.
    constructor.
Qed.
End theme_key.

(** * The claims of the specification *)

(** ** Operations *)

(** C2. [toggleTheme] completes in every world.  It reads the
    [data-theme] attribute of the root, takes an unset (or empty)
    attribute for light, and writes the opposite value first to the
    attribute and then under the [theme] key, so that afterwards the
    stored value is the rendered one.  From light (or unset) the page
    becomes dark, from dark it becomes light. *)
Theorem toggleTheme_flips_and_persists (w : World) :
  ∃ w', toggleTheme w = Normal tt w'
    ∧ rendered_theme w' = Some (toggled_theme w)
    ∧ stored_theme w' = rendered_theme w'
    ∧ trace w' = trace w ++ [ ESetAttribute 0 "data-theme" (toggled_theme w);
                              ESetItem "theme" (toggled_theme w) ]
    ∧ (rendered_theme w = None → rendered_theme w' = Some "dark")
    ∧ (∀ v : Theme, rendered_theme w = Some (theme_name v) →
         rendered_theme w' = Some (theme_name (opposite v))).
Proof.
  exists (toggled w). rewrite rendered_theme_toggled, stored_theme_toggled.
  split; [apply toggleTheme_runs|].
  split; [done|]. split; [done|]. split; [apply trace_toggled|]. split.
  - intros Hunset. by rewrite toggled_theme_cases, Hunset.
  - intros v Hv. rewrite toggled_theme_cases, Hv. by destruct v.
Qed.

(** C4. On three handles that denote elements, [collapseSidebar] puts
    the marker class on the sidebar and on the container, sets
    [aria-expanded] to ["false"] and [aria-label] to
    ["Expand sidebar"] on the button and stores ["collapsed"];
    [expandSidebar] removes the marker from both, sets ["true"] and
    ["Collapse sidebar"] and stores ["expanded"].  Hence the operation
    that enters a state, run from any state and from the other one in
    particular, leaves both markers and the stored value in that state. *)
Theorem collapse_expand_are_inverse (w : World) (s c b : Handle) :
  valid (document w) s → valid (document w) c → valid (document w) b →
  (∃ w', collapseSidebar (Some s) (Some c) (Some b) w = Normal tt w'
     ∧ has_class w' s "is-collapsed" = true
     ∧ has_class w' c "is-collapsed" = true
     ∧ attribute_of w' b "aria-expanded" = Some "false"
     ∧ attribute_of w' b "aria-label" = Some "Expand sidebar"
     ∧ stored_sidebarState w' = Some "collapsed")
  ∧ (∃ w', expandSidebar (Some s) (Some c) (Some b) w = Normal tt w'
     ∧ has_class w' s "is-collapsed" = false
     ∧ has_class w' c "is-collapsed" = false
     ∧ attribute_of w' b "aria-expanded" = Some "true"
     ∧ attribute_of w' b "aria-label" = Some "Collapse sidebar"
     ∧ stored_sidebarState w' = Some "expanded")
  ∧ (∀ st : SidebarState,
       sidebar_in_state w s c (other_state st) →
       ∃ w', enter st (Some s) (Some c) (Some b) w = Normal tt w'
         ∧ sidebar_in_state w' s c st).
Proof.
  intros Hs Hc Hb.
  pose proof (collapsed_classes s c b w Hs Hc) as [? ?].
  pose proof (expanded_classes s c b w) as [? ?].
  pose proof (collapsed_aria s c b w Hb) as [? ?].
  pose proof (expanded_aria s c b w Hb) as [? ?].
  pose proof (collapsed_stored s c b w) as [? _].
  pose proof (expanded_stored s c b w) as [? _].
  split; [|split].
  - exists (collapsed s c b w). by rewrite collapseSidebar_runs.
  - exists (expanded s c b w). by rewrite expandSidebar_runs.
  - intros [|] _; cbn [enter].
    + exists (collapsed s c b w). by rewrite collapseSidebar_runs.
    + exists (expanded s c b w). by rewrite expandSidebar_runs.
Qed.

(** C5. When one of the three elements is missing, the sidebar
    function returns normally in the very world it started in: the
    document, the store, the listener table and the trace of effects
    (so also reads of the store) are all unchanged. *)
Theorem sidebar_inert_without_handles (w : World) :
  find_by_id (document w) "main-sidebar" = None
  ∨ find_by_id (document w) "main-container" = None
  ∨ find_by_id (document w) "sidebar-toggle-button" = None →
  sidebar_module w = Normal tt w.
Proof.
  intros Hmissing. rewrite sidebar_module_runs. f_equal.
  unfold sidebar_loaded.
  destruct (find_by_id (document w) "main-sidebar"),
    (find_by_id (document w) "main-container"),
    (find_by_id (document w) "sidebar-toggle-button"); naive_solver.
Qed.

(** ** Initialisation *)

(** C6. On a page with all three sidebar elements: when storage holds
    [sidebarState = "collapsed"] before the load, then after it the
    sidebar and the container carry the marker class and the button
    has [aria-expanded = "false"] and [aria-label = "Expand sidebar"];
    for every other stored value, and for none, the load changes no
    class list and neither of the two button attributes, so the page
    stays as it was rendered. *)
Theorem sidebar_restored_on_load (d : Document) (st : gmap string string)
    (mm : option (string → bool)) (s c b : Handle) :
  sidebar_handles d s c b →
  ∃ w', load (page d st mm) = Normal tt w'
    ∧ (st !! "sidebarState" = Some "collapsed" →
         has_class w' s "is-collapsed" = true
         ∧ has_class w' c "is-collapsed" = true
         ∧ attribute_of w' b "aria-expanded" = Some "false"
         ∧ attribute_of w' b "aria-label" = Some "Expand sidebar")
    ∧ (st !! "sidebarState" ≠ Some "collapsed" →
         ∀ h cl,
           has_class w' h cl = has_class (page d st mm) h cl
           ∧ attribute_of w' h "aria-expanded"
             = attribute_of (page d st mm) h "aria-expanded"
           ∧ attribute_of w' h "aria-label"
             = attribute_of (page d st mm) h "aria-label").
Proof.
  intros Hh. set (w0 := page d st mm). set (w1 := theme_loaded w0).
  exists (sidebar_loaded w1). split; [apply load_runs|].
  assert (sidebar_handles (document w1) s c b) as Hh1
    by by apply sidebar_handles_theme_loaded.
  assert (stored_sidebarState w1 = st !! "sidebarState") as Hst
    by (unfold stored_sidebarState, w1; by rewrite localStorage_theme_loaded).
  pose proof Hh1 as (Hs & Hc & Hb).
  rewrite (sidebar_loaded_present w1 s c b Hh1), Hst. split.
  - intros Hcol. rewrite bool_decide_eq_true_2 by done. frame_tac.
    set (w2 := log (EGetItem "sidebarState") w1).
    assert (valid (document w2) s) by eauto using valid_find_by_id.
    assert (valid (document w2) c) by eauto using valid_find_by_id.
    assert (valid (document w2) b) by eauto using valid_find_by_id.
    pose proof (collapsed_classes s c b w2) as [? ?]; [done..|].
    pose proof (collapsed_aria s c b w2) as [? ?]; [done|]. done.
  - intros Hother h cl. rewrite bool_decide_eq_false_2 by done. frame_tac.
    unfold w1.
    pose proof (theme_loaded_frame w0 h cl "aria-expanded") as [-> ->]; [done|].
    pose proof (theme_loaded_frame w0 h cl "aria-label") as [_ ->]; done.
Qed.

(** C7. With no stored theme and a system preference for dark, the
    root carries [data-theme = "dark"] after the load and the theme
    checkbox, when the page has one, is checked. *)
Theorem system_dark_on_load (d : Document) (st : gmap string string)
    (mm : option (string → bool)) :
  st !! "theme" = None →
  media_matches mm "(prefers-color-scheme: dark)" = true →
  ∃ w', load (page d st mm) = Normal tt w'
    ∧ rendered_theme w' = Some "dark"
    ∧ (∀ cb, find_by_id d "theme-toggle-checkbox" = Some cb →
         is_checked w' cb = true).
Proof.
  intros Hst Hmm. set (w0 := page d st mm).
  exists (sidebar_loaded (theme_loaded w0)). split; [apply load_runs|].
  assert (initial_theme w0 = Some "dark") as Hinit.
  { unfold initial_theme, stored_theme, system_prefers_dark, w0. cbn.
    by rewrite Hst, Hmm. }
  split.
  - by rewrite rendered_theme_sidebar_loaded, rendered_theme_theme_loaded, Hinit.
  - intros cb Hcb.
    pose proof (sidebar_loaded_frame (theme_loaded w0) cb "data-theme") as [_ ->];
      [done..|].
    rewrite is_checked_theme_loaded, Hinit.
    rewrite (bool_decide_eq_true_2 (find_by_id _ _ = _)) by done.
    rewrite (bool_decide_eq_true_2 (Some "dark" = _)) by done.
    apply orb_true_r.
Qed.

(** C8. The theme initialisation performs no storage write in any
    world: the store is left as it was and none of the effects it adds
    is a write.  When the theme comes from the system preference the
    root and the checkbox become dark while the [theme] key stays
    absent.  Across a whole load followed by any clicks, the [theme]
    key keeps its value and is never written; [toggleTheme] is the
    function that writes it. *)
Theorem theme_written_only_by_toggle :
  (∀ w, ∃ w', theme_module w = Normal tt w'
      ∧ localStorage w' = localStorage w
      ∧ (∃ evs, trace w' = trace w ++ evs
                ∧ Forall (λ ev, writes_storage ev = false) evs)
      ∧ (stored_theme w = None → system_prefers_dark w = true →
           rendered_theme w' = Some "dark"
           ∧ (∀ cb, find_by_id (document w) "theme-toggle-checkbox" = Some cb →
                is_checked w' cb = true)
           ∧ stored_theme w' = None))
  ∧ (∀ d st mm hs,
       ∃ w', (load ;;; user_events (Click <$> hs)) (page d st mm) = Normal tt w'
         ∧ stored_theme w' = st !! "theme"
         ∧ no_theme_write (trace w'))
  ∧ (∀ w, ∃ w', toggleTheme w = Normal tt w'
       ∧ stored_theme w' = Some (toggled_theme w)
       ∧ trace w' = trace w ++ [ ESetAttribute 0 "data-theme" (toggled_theme w);
                                 ESetItem "theme" (toggled_theme w) ]).
Proof.
  split; [|split].
  - intros w. exists (theme_loaded w). split; [apply theme_module_runs|].
    split; [apply localStorage_theme_loaded|]. split.
    + destruct (trace_theme_loaded w) as (evs & Htr & Hevs & _).
      exists (EGetItem "theme" :: evs). split; [done|]. by constructor.
    + intros Hst Hsys.
      assert (initial_theme w = Some "dark") as Hinit
        by (unfold initial_theme; by rewrite Hst, Hsys).
      split; [by rewrite rendered_theme_theme_loaded, Hinit|]. split.
      * intros cb Hcb. rewrite is_checked_theme_loaded, Hinit.
        rewrite (bool_decide_eq_true_2 (find_by_id _ _ = _)) by done.
        rewrite (bool_decide_eq_true_2 (Some "dark" = _)) by done.
        apply orb_true_r.
      * unfold stored_theme in *. by rewrite localStorage_theme_loaded.
  - intros d st mm hs.
    destruct (clicks_theme_untouched d (st !! "theme") hs _
                (theme_untouched_after_load d st mm)) as (w' & Hrun & _ & Hst & Htr).
    exists w'. split; [|done].
    by rewrite (js_bind_normal _ _ _ _ _ (load_runs _)).
  - intros w. exists (toggled w). split; [apply toggleTheme_runs|].
    split; [apply stored_theme_toggled|apply trace_toggled].
Qed.

(** C9, as amended.  A non-empty stored theme is copied to
    [data-theme] as it is, whatever the string: after the load the
    attribute equals it.  The script sets [checked] on the checkbox
    only when the string is ["dark"] and never clears it, so the
    checkbox is checked after the load exactly when it was checked
    before or the string is ["dark"]; a checkbox that was rendered
    unchecked is checked after the load exactly when the string is
    ["dark"].  [toggleTheme] completes on every attribute value,
    yields ["dark"] from every value other than ["dark"], and always
    leaves one of the two theme names. *)
Theorem stored_theme_copied_verbatim :
  (∀ d st mm v,
     st !! "theme" = Some v → v ≠ "" →
     ∃ w', load (page d st mm) = Normal tt w'
       ∧ rendered_theme w' = Some v
       ∧ (∀ cb, find_by_id d "theme-toggle-checkbox" = Some cb →
            is_checked w' cb
            = is_checked (page d st mm) cb || bool_decide (v = "dark"))
       ∧ (∀ cb, find_by_id d "theme-toggle-checkbox" = Some cb →
            is_checked (page d st mm) cb = false →
            (is_checked w' cb = true ↔ v = "dark"))
       ∧ (∃ w1 evs, theme_module (page d st mm) = Normal tt w1
            ∧ trace w1 = EGetItem "theme" :: evs
            ∧ (Exists (λ ev, sets_checked ev = true) evs ↔
                 is_Some (find_by_id d "theme-toggle-checkbox") ∧ v = "dark")))
  ∧ (∀ w u, rendered_theme w = Some u → u ≠ "dark" →
       ∃ w', toggleTheme w = Normal tt w' ∧ rendered_theme w' = Some "dark")
  ∧ (∀ w, ∃ w' t, toggleTheme w = Normal tt w'
       ∧ rendered_theme w' = Some (theme_name t)).
Proof.
  split; [|split].
  - intros d st mm v Hst Hv. set (w0 := page d st mm).
    assert (initial_theme w0 = Some v) as Hinit.
    { unfold initial_theme, stored_theme, w0. cbn [localStorage page].
      rewrite Hst. cbn [truthy to_DOMString].
      by rewrite bool_decide_eq_false_2. }
    exists (sidebar_loaded (theme_loaded w0)). split; [apply load_runs|].
    assert (∀ cb, find_by_id d "theme-toggle-checkbox" = Some cb →
              is_checked (sidebar_loaded (theme_loaded w0)) cb
              = is_checked w0 cb || bool_decide (v = "dark")) as Hchecked.
    { intros cb Hcb.
      pose proof (sidebar_loaded_frame (theme_loaded w0) cb "data-theme") as [_ ->];
        [done..|].
      rewrite is_checked_theme_loaded, Hinit.
      rewrite (bool_decide_eq_true_2 (find_by_id _ _ = _)) by done.
      by rewrite bool_decide_Some_eq. }
    split; [|split; [|split]].
    + by rewrite rendered_theme_sidebar_loaded, rendered_theme_theme_loaded, Hinit.
    + done.
    + intros cb Hcb Hunchecked. rewrite (Hchecked cb Hcb), Hunchecked.
      cbn [orb]. apply bool_decide_eq_true.
    + destruct (trace_theme_loaded w0) as (evs & Htr & _ & Hsets).
      exists (theme_loaded w0), evs. split; [apply theme_module_runs|]. split; [done|].
      rewrite Hsets, Hinit. unfold w0; cbn [document page]. naive_solver.
  - intros w u Hu Hne. exists (toggled w). split; [apply toggleTheme_runs|].
    rewrite rendered_theme_toggled, toggled_theme_cases, Hu.
    by rewrite bool_decide_eq_false_2 by congruence.
  - intros w. exists (toggled w).
    exists (if bool_decide (rendered_theme w = Some "dark") then Light else Dark).
    split; [apply toggleTheme_runs|].
    rewrite rendered_theme_toggled, toggled_theme_cases.
    by case_bool_decide.
Qed.

(** C10. The sidebar initialisation leaves the store as it found it,
    in every world.  It does write, unlike the theme initialisation,
    but only when all three elements exist and the stored state is
    ["collapsed"], and then the only write is
    [setItem("sidebarState", "collapsed")], which stores the value
    already there.  So the store after a page load is the store before
    it. *)
Theorem sidebar_init_keeps_stored_state :
  (∀ w, ∃ w', sidebar_module w = Normal tt w'
      ∧ localStorage w' = localStorage w
      ∧ ∃ evs, trace w' = trace w ++ evs
          ∧ Forall (λ ev, writes_storage ev = true →
                          ev = ESetItem "sidebarState" "collapsed") evs
          ∧ (Exists (λ ev, writes_storage ev = true) evs ↔
               (∃ s c b, sidebar_handles (document w) s c b)
               ∧ stored_sidebarState w = Some "collapsed"))
  ∧ (∀ d st mm, ∃ w', load (page d st mm) = Normal tt w'
       ∧ localStorage w' = st).
Proof.
  split.
  - intros w. exists (sidebar_loaded w). split; [apply sidebar_module_runs|].
    split; [apply localStorage_sidebar_loaded|].
    destruct (sidebar_handles_dec (document w)) as [(s & c & b & Hh)|Hno].
    + rewrite (trace_sidebar_loaded w s c b Hh). rewrite <- !app_assoc.
      eexists. split; [reflexivity|]. cbn [app].
      case_bool_decide as Hst; cbn [app].
      * split; [by repeat constructor|].
        split; [by eauto 10|]. intros _. do 5 right. by left.
      * split; [by repeat constructor|].
        rewrite !Exists_cons, Exists_nil. cbn [writes_storage]. naive_solver.
    + rewrite sidebar_loaded_absent by done. exists []. rewrite app_nil_r.
      split; [done|]. split; [constructor|].
      rewrite Exists_nil. naive_solver.
  - intros d st mm. exists (sidebar_loaded (theme_loaded (page d st mm))).
    split; [apply load_runs|].
    by rewrite localStorage_sidebar_loaded, localStorage_theme_loaded.
Qed.

(** C3, as amended.  The load resolves the theme with the precedence
    stored preference, system preference, light.  A stored preference
    or a system preference for dark is written to [data-theme]; when
    the resolution falls through to light, nothing is written and the
    attribute stays as the page was rendered.  The checkbox, when
    present, is checked by the script when the resolved theme is dark
    and is otherwise left alone.  A stored ["light"] gives a light page
    whatever the system prefers. *)
Theorem theme_resolved_on_load (d : Document) (st : gmap string string)
    (mm : option (string → bool)) :
  ∃ w', load (page d st mm) = Normal tt w'
    ∧ rendered_theme w'
      = (if truthy (st !! "theme") || media_matches mm "(prefers-color-scheme: dark)"
         then Some (resolved_theme (page d st mm))
         else rendered_theme (page d st mm))
    ∧ (truthy (st !! "theme") || media_matches mm "(prefers-color-scheme: dark)" = false →
         resolved_theme (page d st mm) = "light")
    ∧ (∀ cb, find_by_id d "theme-toggle-checkbox" = Some cb →
         is_checked w' cb
         = is_checked (page d st mm) cb
           || bool_decide (resolved_theme (page d st mm) = "dark"))
    ∧ (st !! "theme" = Some "light" → rendered_theme w' = Some "light").
Proof.
  set (w0 := page d st mm).
  exists (sidebar_loaded (theme_loaded w0)). split; [apply load_runs|].
  rewrite rendered_theme_sidebar_loaded, rendered_theme_theme_loaded.
  assert (initial_theme w0 =
            if truthy (st !! "theme") || media_matches mm "(prefers-color-scheme: dark)"
            then Some (resolved_theme w0) else None) as Hinit.
  { unfold initial_theme, resolved_theme, stored_theme, system_prefers_dark, w0.
    cbn [localStorage matchMedia page].
    by destruct (truthy (st !! "theme")), (media_matches mm _). }
  assert (truthy (st !! "theme") || media_matches mm "(prefers-color-scheme: dark)" = false →
          resolved_theme w0 = "light") as Hlight.
  { unfold resolved_theme, stored_theme, system_prefers_dark, w0.
    cbn [localStorage matchMedia page].
    by destruct (truthy (st !! "theme")), (media_matches mm _). }
  rewrite Hinit. split; [by destruct (_ || _)|]. split; [done|]. split.
  - intros cb Hcb.
    pose proof (sidebar_loaded_frame (theme_loaded w0) cb "data-theme") as [_ ->];
      [done..|].
    rewrite is_checked_theme_loaded, Hinit.
    rewrite (bool_decide_eq_true_2 (find_by_id _ _ = _)) by done.
    destruct (_ || _) eqn:Hres.
    + by rewrite bool_decide_Some_eq.
    + rewrite (Hlight eq_refl). by rewrite !bool_decide_eq_false_2.
  - intros Hst. unfold resolved_theme, stored_theme, w0.
    cbn [localStorage page]. by rewrite Hst.
Qed.

(** ** The invariant of the data model *)

(** Loading a page and any sequence of user events complete without
    an exception. *)
Lemma script_never_throws (d : Document) (st : gmap string string)
    (mm : option (string → bool)) (evs : list UserEvent) :
  ∃ w, (load ;;; user_events evs) (page d st mm) = Normal tt w ∧ loaded d w.
Proof.
  rewrite (js_bind_normal _ _ _ _ _ (load_runs _)).
  apply user_events_loaded, loaded_after_load.
Qed.

(** C1. Load any page and let the user do anything.  When the user
    then changes the theme checkbox, the handler [toggleTheme] leaves
    the [theme] key equal to the [data-theme] attribute of the root;
    when the user then clicks the sidebar toggle button of a page
    with all three sidebar elements, the handler leaves [sidebarState]
    naming the state the marker class of the sidebar shows, with the
    container carrying the marker exactly when the sidebar does. *)
Theorem stored_matches_rendered_after_transition (d : Document)
    (st : gmap string string) (mm : option (string → bool))
    (evs : list UserEvent) :
  ∃ w, (load ;;; user_events evs) (page d st mm) = Normal tt w
    ∧ (∀ cb, find_by_id d "theme-toggle-checkbox" = Some cb →
         ∃ w', user_event (Change cb) w = Normal tt w'
           ∧ is_Some (stored_theme w')
           ∧ stored_theme w' = rendered_theme w')
    ∧ (∀ s c b, sidebar_handles d s c b →
         ∃ w', user_event (Click b) w = Normal tt w'
           ∧ stored_sidebarState w' = Some (rendered_sidebar w' s)
           ∧ has_class w' c "is-collapsed" = has_class w' s "is-collapsed").
Proof.
  destruct (script_never_throws d st mm evs) as (w & Hrun & Hw).
  exists w. split; [done|]. split.
  - intros cb Hcb. rewrite (change_checkbox_runs d w cb Hw Hcb).
    eexists. split; [done|].
    rewrite stored_theme_toggled, rendered_theme_toggled. eauto.
  - intros s c b Hh. rewrite (click_button_runs d w s c b Hw Hh).
    eexists. split; [done|]. destruct Hh as (Hs & Hc & _).
    unfold clicked, rendered_sidebar.
    destruct (has_class w s "is-collapsed").
    + destruct (expanded_classes s c b w) as [-> ->].
      by destruct (expanded_stored s c b w) as [-> _].
    + destruct (collapsed_classes s c b w) as [-> ->];
        [by eapply loaded_valid..|].
      by destruct (collapsed_stored s c b w) as [-> _].
Qed.

(** * The claims on concrete pages *)

(** C1 on the dashboard page, dark system preference, after a click
    and two changes of the checkbox. *)
Lemma stored_matches_rendered_on_dashboard :
  find_by_id dashboard "theme-toggle-checkbox" = Some 1
  ∧ sidebar_handles dashboard 2 3 4
  ∧ ∃ w, (load ;;; user_events [Click 4; Change 1; Change 1])
           (page dashboard ∅ prefers_dark) = Normal tt w
      ∧ (∃ w', user_event (Change 1) w = Normal tt w'
           ∧ is_Some (stored_theme w')
           ∧ stored_theme w' = rendered_theme w')
      ∧ (∃ w', user_event (Click 4) w = Normal tt w'
           ∧ stored_sidebarState w' = Some (rendered_sidebar w' 2)
           ∧ has_class w' 3 "is-collapsed" = has_class w' 2 "is-collapsed").
Proof.
  split; [reflexivity|]. split; [repeat split|].
  destruct (stored_matches_rendered_after_transition dashboard ∅ prefers_dark
              [Click 4; Change 1; Change 1]) as (w & Hrun & Htheme & Hside).
  exists w. split; [exact Hrun|]. split.
  - apply Htheme. reflexivity.
  - apply Hside. repeat split.
Defined.

(** C2 on a page rendered dark. *)
Lemma toggleTheme_from_dark :
  let w := put_attribute 0 "data-theme" "dark" (page dashboard ∅ None) in
  rendered_theme w = Some (theme_name Dark)
  ∧ ∃ w', toggleTheme w = Normal tt w'
      ∧ rendered_theme w' = Some "light"
      ∧ stored_theme w' = Some "light".
Proof.
  intros w. split; [reflexivity|].
  destruct (toggleTheme_flips_and_persists w)
    as (w' & Hrun & _ & Hstored & _ & _ & Hflip).
  exists w'. split; [exact Hrun|].
  assert (rendered_theme w' = Some "light") as Hlight
    by (apply (Hflip Dark); reflexivity).
  split; [exact Hlight|]. rewrite Hstored. exact Hlight.
Defined.

(** C3: on the dashboard page with an empty store and a light system
    preference the resolved theme is light, and no [data-theme]
    attribute is set by the load. *)
Lemma light_default_is_not_written :
  resolved_theme (page dashboard ∅ prefers_light) = "light"
  ∧ ¬ ∃ w', load (page dashboard ∅ prefers_light) = Normal tt w'
          ∧ rendered_theme w'
            = Some (resolved_theme (page dashboard ∅ prefers_light)).
Proof.
  split; [reflexivity|]. intros (w' & Hrun & Hrendered).
  rewrite load_runs in Hrun. injection Hrun as <-.
  vm_compute in Hrendered. discriminate Hrendered.
Qed.

(** C3 as amended, on the dashboard page with a stored light theme
    and a dark system preference. *)
Lemma stored_light_beats_system_dark :
  ({[ "theme" := "light" ]} : gmap string string) !! "theme" = Some "light"
  ∧ find_by_id dashboard "theme-toggle-checkbox" = Some 1
  ∧ ∃ w', load (page dashboard {[ "theme" := "light" ]} prefers_dark) = Normal tt w'
      ∧ rendered_theme w' = Some "light"
      ∧ is_checked w' 1 = false.
Proof.
  split; [reflexivity|]. split; [reflexivity|].
  destruct (theme_resolved_on_load dashboard {[ "theme" := "light" ]} prefers_dark)
    as (w' & Hrun & _ & _ & Hchecked & Hlight).
  exists w'. split; [exact Hrun|]. split.
  - apply Hlight. reflexivity.
  - rewrite (Hchecked 1) by reflexivity. reflexivity.
Defined.

(** C4 on the freshly rendered dashboard page. *)
Lemma collapse_expand_on_dashboard :
  valid dashboard 2 ∧ valid dashboard 3 ∧ valid dashboard 4
  ∧ (∃ w', collapseSidebar (Some 2) (Some 3) (Some 4) (page dashboard ∅ None)
           = Normal tt w'
       ∧ has_class w' 2 "is-collapsed" = true
       ∧ has_class w' 3 "is-collapsed" = true
       ∧ attribute_of w' 4 "aria-expanded" = Some "false"
       ∧ attribute_of w' 4 "aria-label" = Some "Expand sidebar"
       ∧ stored_sidebarState w' = Some "collapsed").
Proof.
  assert (valid dashboard 2) as H2 by (eexists; reflexivity).
  assert (valid dashboard 3) as H3 by (eexists; reflexivity).
  assert (valid dashboard 4) as H4 by (eexists; reflexivity).
  split; [exact H2|]. split; [exact H3|]. split; [exact H4|].
  exact (proj1 (collapse_expand_are_inverse (page dashboard ∅ None) 2 3 4 H2 H3 H4)).
Defined.

(** C5 on a page without the toggle button. *)
Lemma sidebar_inert_without_button :
  find_by_id no_button "sidebar-toggle-button" = None
  ∧ sidebar_module (page no_button ∅ None) = Normal tt (page no_button ∅ None).
Proof.
  split; [reflexivity|].
  apply sidebar_inert_without_handles. right; right. reflexivity.
Defined.

(** C6 on the dashboard page with a stored collapsed sidebar. *)
Lemma collapsed_sidebar_restored_on_dashboard :
  sidebar_handles dashboard 2 3 4
  ∧ ({[ "sidebarState" := "collapsed" ]} : gmap string string) !! "sidebarState"
    = Some "collapsed"
  ∧ ∃ w', load (page dashboard {[ "sidebarState" := "collapsed" ]} None) = Normal tt w'
      ∧ has_class w' 2 "is-collapsed" = true
      ∧ has_class w' 3 "is-collapsed" = true
      ∧ attribute_of w' 4 "aria-expanded" = Some "false"
      ∧ attribute_of w' 4 "aria-label" = Some "Expand sidebar".
Proof.
  assert (sidebar_handles dashboard 2 3 4) as Hh by (repeat split).
  split; [exact Hh|]. split; [reflexivity|].
  destruct (sidebar_restored_on_load dashboard {[ "sidebarState" := "collapsed" ]}
              None 2 3 4 Hh) as (w' & Hrun & Hcollapsed & _).
  exists w'. split; [exact Hrun|]. apply Hcollapsed. reflexivity.
Defined.

(** C7 on the dashboard page. *)
Lemma system_dark_on_dashboard :
  (∅ : gmap string string) !! "theme" = None
  ∧ media_matches prefers_dark "(prefers-color-scheme: dark)" = true
  ∧ ∃ w', load (page dashboard ∅ prefers_dark) = Normal tt w'
      ∧ rendered_theme w' = Some "dark"
      ∧ is_checked w' 1 = true.
Proof.
  split; [reflexivity|]. split; [reflexivity|].
  destruct (system_dark_on_load dashboard ∅ prefers_dark)
    as (w' & Hrun & Hdark & Hchecked); [reflexivity..|].
  exists w'. split; [exact Hrun|]. split; [exact Hdark|].
  apply Hchecked. reflexivity.
Defined.

(** C8 on the dashboard page: the dark theme is rendered from the
    system preference and the [theme] key stays absent. *)
Lemma system_dark_is_not_stored :
  stored_theme (page dashboard ∅ prefers_dark) = None
  ∧ system_prefers_dark (page dashboard ∅ prefers_dark) = true
  ∧ ∃ w', theme_module (page dashboard ∅ prefers_dark) = Normal tt w'
      ∧ rendered_theme w' = Some "dark"
      ∧ is_checked w' 1 = true
      ∧ stored_theme w' = None.
Proof.
  split; [reflexivity|]. split; [reflexivity|].
  destruct (proj1 theme_written_only_by_toggle (page dashboard ∅ prefers_dark))
    as (w' & Hrun & _ & _ & Hsystem).
  destruct Hsystem as (Hdark & Hchecked & Habsent); [reflexivity..|].
  exists w'. split; [exact Hrun|]. split; [exact Hdark|].
  split; [apply Hchecked; reflexivity|exact Habsent].
Defined.

(** C9: on the dashboard page whose checkbox is rendered checked,
    with ["sepia"] stored, the checkbox is still checked after the
    load although the stored string is not ["dark"]. *)
Lemma checked_box_stays_checked :
  ({[ "theme" := "sepia" ]} : gmap string string) !! "theme" = Some "sepia"
  ∧ find_by_id dashboard_checked "theme-toggle-checkbox" = Some 1
  ∧ ¬ ∃ w', load (page dashboard_checked {[ "theme" := "sepia" ]} None)
            = Normal tt w'
          ∧ rendered_theme w' = Some "sepia"
          ∧ (is_checked w' 1 = true → "sepia" = "dark").
Proof.
  split; [reflexivity|]. split; [reflexivity|].
  intros (w' & Hrun & _ & Honly).
  rewrite load_runs in Hrun. injection Hrun as <-.
  assert ("sepia" = "dark") as Habsurd by (apply Honly; reflexivity).
  discriminate Habsurd.
Qed.

(** C9 as amended, on the dashboard page with a stored theme outside
    the two theme names. *)
Lemma stored_sepia_is_rendered :
  ({[ "theme" := "sepia" ]} : gmap string string) !! "theme" = Some "sepia"
  ∧ "sepia" ≠ ""
  ∧ ∃ w', load (page dashboard {[ "theme" := "sepia" ]} prefers_dark) = Normal tt w'
      ∧ rendered_theme w' = Some "sepia"
      ∧ is_checked w' 1 = false.
Proof.
  split; [reflexivity|]. split; [discriminate|].
  destruct (proj1 stored_theme_copied_verbatim dashboard {[ "theme" := "sepia" ]}
              prefers_dark "sepia") as (w' & Hrun & Hrendered & Hchecked & _ & _);
    [reflexivity|discriminate|].
  exists w'. split; [exact Hrun|]. split; [exact Hrendered|].
  rewrite (Hchecked 1) by reflexivity. reflexivity.
Defined.

(** C10 on the dashboard page with a stored collapsed sidebar: the
    initialisation writes, and the store is the one it started with. *)
Lemma sidebar_init_rewrites_collapsed :
  let w := page dashboard {[ "sidebarState" := "collapsed" ]} None in
  sidebar_handles (document w) 2 3 4
  ∧ stored_sidebarState w = Some "collapsed"
  ∧ ∃ w' evs, sidebar_module w = Normal tt w'
      ∧ localStorage w' = localStorage w
      ∧ trace w' = trace w ++ evs
      ∧ Exists (λ ev, writes_storage ev = true) evs.
Proof.
  intros w.
  assert (sidebar_handles (document w) 2 3 4) as Hh by (repeat split).
  split; [exact Hh|]. split; [reflexivity|].
  destruct (proj1 sidebar_init_keeps_stored_state w)
    as (w' & Hrun & Hstore & evs & Htrace & _ & Hwrites).
  exists w', evs. split; [exact Hrun|]. split; [exact Hstore|].
  split; [exact Htrace|]. apply Hwrites. split; [|reflexivity].
  exists 2, 3, 4. exact Hh.
Defined.

(** * Further properties of the script *)

(** ** Every user event, as a function on loaded worlds *)

Section event_runs.
Implicit Types (d : Document) (w : World) (h s c b : Handle).

Lemma sidebar_listeners_absent d :
  (¬ ∃ s c b, sidebar_handles d s c b) → sidebar_listeners d = [].
Proof.
  intros Hno. unfold sidebar_listeners.
  destruct (find_by_id d "main-sidebar") as [s|] eqn:Hs; [|done].
  destruct (find_by_id d "main-container") as [c|] eqn:Hc; [|done].
  destruct (find_by_id d "sidebar-toggle-button") as [b|] eqn:Hb; [|done].
  destruct Hno. by exists s, c, b.
Qed.

Lemma listeners_for_change d h :
  listeners_for h "change" (theme_listeners d ++ sidebar_listeners d) =
    if bool_decide (find_by_id d "theme-toggle-checkbox" = Some h)
    then [ToggleThemeListener] else [].
Proof.
  rewrite listeners_for_app, listeners_for_theme.
  rewrite (bool_decide_eq_true_2 ("change" = "change")), andb_true_r by done.
  assert (listeners_for h "change" (sidebar_listeners d) = []) as ->;
    [|by rewrite app_nil_r].
  destruct (sidebar_handles_dec d) as [(s & c & b & Hh)|Hno].
  - rewrite (listeners_for_sidebar d h "change" s c b Hh).
    by rewrite andb_false_r.
  - by rewrite sidebar_listeners_absent.
Qed.

Lemma user_event_runs d ev w :
  loaded d w → user_event ev w = Normal tt (after_event d ev w).
Proof.
  intros Hw. pose proof Hw as [Hids Hl].
  destruct ev as [h|h]; cbn [user_event after_event].
  - unfold js_bind, dispatchEvent. cbn [listeners modify_node].
    rewrite Hl, listeners_for_change.
    case_bool_decide; cbn [run_listeners run_listener]; [|done].
    by rewrite (js_bind_normal _ _ _ _ _ (toggleTheme_runs _)).
  - unfold dispatchEvent. rewrite Hl, listeners_for_click.
    destruct (sidebar_handles_dec d) as [(s & c & b & Hh)|Hno].
    + rewrite (listeners_for_sidebar d h "click" s c b Hh).
      rewrite (bool_decide_eq_true_2 ("click" = "click")), andb_true_r by done.
      destruct Hh as (Hs & Hc & Hb). rewrite Hs, Hc, Hb.
      case_bool_decide; cbn [run_listeners run_listener]; [|done].
      erewrite js_bind_normal; [done|].
      apply sidebar_click_runs; by eapply loaded_valid.
    + rewrite sidebar_listeners_absent by done. cbn [listeners_for omap run_listeners].
      destruct (find_by_id d "main-sidebar") as [s|] eqn:Hs; [|done].
      destruct (find_by_id d "main-container") as [c|] eqn:Hc; [|done].
      destruct (find_by_id d "sidebar-toggle-button") as [b|] eqn:Hb; [|done].
      destruct Hno. by exists s, c, b.
Qed.

Lemma loaded_after_event d ev w : loaded d w → loaded d (after_event d ev w).
Proof.
  intros Hw. destruct (user_event_loaded d ev w Hw) as (w' & Hrun & Hw').
  rewrite (user_event_runs d ev w Hw) in Hrun. by injection Hrun as ->.
Qed.

(** An invariant of every single event is an invariant of the session. *)
Lemma user_events_invariant d (I : World → Prop) :
  (∀ ev w, loaded d w → I w → I (after_event d ev w)) →
  ∀ evs w, loaded d w → I w →
  ∃ w', user_events evs w = Normal tt w' ∧ loaded d w' ∧ I w'.
Proof.
  intros Hstep. induction evs as [|ev evs IH]; intros w Hw HI; cbn [user_events].
  - by exists w.
  - rewrite (js_bind_normal _ _ _ _ _ (user_event_runs d ev w Hw)).
    apply IH; [by apply loaded_after_event|by apply Hstep].
Qed.

Lemma session_invariant d st mm (I : World → Prop) :
  I (sidebar_loaded (theme_loaded (page d st mm))) →
  (∀ ev w, loaded d w → I w → I (after_event d ev w)) →
  ∀ evs, ∃ w, (load ;;; user_events evs) (page d st mm) = Normal tt w
              ∧ loaded d w ∧ I w.
Proof.
  intros Hinit Hstep evs.
  rewrite (js_bind_normal _ _ _ _ _ (load_runs _)).
  apply user_events_invariant; [done|apply loaded_after_load|done].
Qed.
End event_runs.

(** ** How every observation moves under the three handlers *)

Section handler_frames.
Implicit Types (d : Document) (w : World) (h s c b : Handle) (cl : string).

Lemma has_class_put_class h cl w h' cl' :
  valid (document w) h →
  has_class (put_class h cl w) h' cl' =
    has_class w h' cl' || (bool_decide (h = h') && bool_decide (cl = cl')).
Proof.
  intros Hv. destruct (valid_node _ _ Hv) as [e He].
  unfold has_class. rewrite node_put_class.
  destruct (decide (h = h')) as [<-|Hne].
  - rewrite He; cbn. rewrite (bool_decide_eq_true_2 (h = h)) by done. cbn.
    destruct (decide (cl = cl')) as [<-|Hcl].
    + rewrite (bool_decide_eq_true_2 (cl = cl)) by done.
      rewrite orb_true_r. apply bool_decide_eq_true_2, token_add_elem.
    + rewrite (bool_decide_eq_false_2 (cl = cl')), orb_false_r by done.
      apply bool_decide_ext. unfold token_add.
      case_bool_decide; [done|].
      rewrite elem_of_app, list_elem_of_singleton. naive_solver.
  - by rewrite (bool_decide_eq_false_2 (h = h')), orb_false_r by done.
Qed.

Lemma has_class_drop_class h cl w h' cl' :
  has_class (drop_class h cl w) h' cl' =
    has_class w h' cl' && negb (bool_decide (h = h') && bool_decide (cl = cl')).
Proof.
  unfold has_class. rewrite node_drop_class.
  destruct (decide (h = h')) as [<-|Hne].
  - rewrite (bool_decide_eq_true_2 (h = h)) by done. cbn [andb].
    destruct (node w h) as [e|]; cbn; [|done].
    destruct (decide (cl = cl')) as [<-|Hcl].
    + rewrite (bool_decide_eq_true_2 (cl = cl)), andb_false_r by done.
      apply bool_decide_eq_false_2. rewrite token_remove_elem. by intros [? _].
    + rewrite (bool_decide_eq_false_2 (cl = cl')), andb_true_r by done.
      apply bool_decide_ext. rewrite token_remove_elem. naive_solver.
  - by rewrite (bool_decide_eq_false_2 (h = h')), andb_true_r by done.
Qed.

(** The class memberships after [collapseSidebar] and [expandSidebar]. *)
Lemma has_class_collapsed s c b w h cl :
  valid (document w) s → valid (document w) c →
  has_class (collapsed s c b w) h cl =
    has_class w h cl
    || bool_decide (cl = "is-collapsed")
       && (bool_decide (h = s) || bool_decide (h = c)).
Proof.
  intros Hs Hc. unfold collapsed. frame_tac.
  rewrite !has_class_put_class by (by rewrite ?valid_put_class).
  rewrite (bool_decide_ext (s = h) (h = s)), (bool_decide_ext (c = h) (h = c)),
    (bool_decide_ext ("is-collapsed" = cl) (cl = "is-collapsed")) by done.
  by destruct (has_class w h cl), (bool_decide (h = s)), (bool_decide (h = c)),
    (bool_decide (cl = "is-collapsed")).
Qed.

Lemma has_class_expanded s c b w h cl :
  has_class (expanded s c b w) h cl =
    has_class w h cl
    && negb (bool_decide (cl = "is-collapsed")
             && (bool_decide (h = s) || bool_decide (h = c))).
Proof.
  unfold expanded. frame_tac. rewrite !has_class_drop_class.
  rewrite (bool_decide_ext (s = h) (h = s)), (bool_decide_ext (c = h) (h = c)),
    (bool_decide_ext ("is-collapsed" = cl) (cl = "is-collapsed")) by done.
  by destruct (has_class w h cl), (bool_decide (h = s)), (bool_decide (h = c)),
    (bool_decide (cl = "is-collapsed")).
Qed.

Lemma clicked_frame s c b w h name :
  name ≠ "aria-expanded" → name ≠ "aria-label" →
  attribute_of (clicked s c b w) h name = attribute_of w h name
  ∧ is_checked (clicked s c b w) h = is_checked w h
  ∧ stored_theme (clicked s c b w) = stored_theme w.
Proof.
  intros H1 H2. unfold clicked. destruct (has_class w s "is-collapsed").
  - destruct (expanded_frame s c b w h name H1 H2) as [-> ->].
    by destruct (expanded_stored s c b w) as [_ ->].
  - destruct (collapsed_frame s c b w h name H1 H2) as [-> ->].
    by destruct (collapsed_stored s c b w) as [_ ->].
Qed.

Lemma rendered_theme_clicked s c b w :
  rendered_theme (clicked s c b w) = rendered_theme w.
Proof.
  rewrite !rendered_theme_attribute.
  by destruct (clicked_frame s c b w 0 "data-theme") as (-> & _).
Qed.

Lemma toggled_frame w h cl name :
  name ≠ "data-theme" →
  has_class (toggled w) h cl = has_class w h cl
  ∧ attribute_of (toggled w) h name = attribute_of w h name
  ∧ is_checked (toggled w) h = is_checked w h
  ∧ stored_sidebarState (toggled w) = stored_sidebarState w.
Proof.
  intros Hne. unfold toggled. frame_tac. repeat split; try done.
  unfold stored_sidebarState. world_projections. by rewrite lookup_insert_ne.
Qed.

Lemma flipped_frame w h h' cl name :
  has_class (modify_node h flip_checked w) h' cl = has_class w h' cl
  ∧ attribute_of (modify_node h flip_checked w) h' name = attribute_of w h' name
  ∧ localStorage (modify_node h flip_checked w) = localStorage w.
Proof.
  unfold has_class, attribute_of. rewrite !node_modify_node.
  case_decide; [subst h'|done]. by destruct (node w h).
Qed.

Lemma is_checked_flipped w h h' :
  valid (document w) h →
  is_checked (modify_node h flip_checked w) h' =
    if bool_decide (h = h') then negb (is_checked w h') else is_checked w h'.
Proof.
  intros Hv. destruct (valid_node _ _ Hv) as [e He].
  unfold is_checked. rewrite node_modify_node.
  case_decide as Hh; [subst h'|by rewrite bool_decide_eq_false_2].
  by rewrite bool_decide_eq_true_2, He.
Qed.

Lemma is_checked_flipped_other w h h' :
  h ≠ h' → is_checked (modify_node h flip_checked w) h' = is_checked w h'.
Proof.
  intros Hne. unfold is_checked. by rewrite node_modify_node, decide_False.
Qed.

Lemma rendered_theme_flipped w h :
  rendered_theme (modify_node h flip_checked w) = rendered_theme w.
Proof.
  rewrite !rendered_theme_attribute.
  by destruct (flipped_frame w h 0 "" "data-theme") as (_ & -> & _).
Qed.
End handler_frames.

(** ** Invariants of a whole session *)

(** X1. On every page, with every store and system preference, the
    load followed by any sequence of changes and clicks on any
    elements completes without an exception.  Afterwards the listener
    table is exactly what the load registered: [toggleTheme] for
    [change] on the checkbox when there is one, and the click listener
    on the toggle button when all three sidebar elements exist; no
    handler registers anything further. *)
Theorem session_completes_with_fixed_listeners (d : Document)
    (st : gmap string string) (mm : option (string → bool))
    (evs : list UserEvent) :
  ∃ w, (load ;;; user_events evs) (page d st mm) = Normal tt w
    ∧ ids (document w) = ids d
    ∧ listeners w = theme_listeners d ++ sidebar_listeners d
    ∧ (length (listeners w) ≤ 2)%nat.
Proof.
  destruct (session_invariant d st mm (λ _, True) I (λ _ _ _ _, I) evs)
    as (w & Hrun & [Hids Hl] & _).
  exists w. split; [done|]. split; [done|]. split; [done|].
  rewrite Hl, length_app. unfold theme_listeners, sidebar_listeners.
  destruct (find_by_id d "theme-toggle-checkbox"), (find_by_id d "main-sidebar"),
    (find_by_id d "main-container"), (find_by_id d "sidebar-toggle-button");
    cbn; lia.
Qed.

Lemma theme_in_step_after_event d ev w :
  theme_in_step w → theme_in_step (after_event d ev w).
Proof.
  unfold theme_in_step. intros Hw. destruct ev as [h|h]; cbn [after_event].
  - case_bool_decide.
    + intros _. by rewrite rendered_theme_toggled, stored_theme_toggled.
    + by rewrite rendered_theme_flipped.
  - destruct (find_by_id d "main-sidebar") as [s|]; [|done].
    destruct (find_by_id d "main-container") as [c|]; [|done].
    destruct (find_by_id d "sidebar-toggle-button") as [b|]; [|done].
    case_bool_decide; [|done]. rewrite rendered_theme_clicked.
    by destruct (clicked_frame s c b w 0 "data-theme") as (_ & _ & ->).
Qed.

(** X2. At every point of a session, after the load and after each
    event, a stored theme that is a non-empty string equals the
    [data-theme] attribute of the root. *)
Theorem stored_theme_is_rendered_throughout (d : Document)
    (st : gmap string string) (mm : option (string → bool))
    (evs : list UserEvent) :
  ∃ w, (load ;;; user_events evs) (page d st mm) = Normal tt w
    ∧ (truthy (stored_theme w) = true → rendered_theme w = stored_theme w).
Proof.
  destruct (session_invariant d st mm theme_in_step) with (evs := evs)
    as (w & Hrun & _ & Hw).
  - intros Htruthy. rewrite stored_theme_sidebar_loaded in *.
    rewrite rendered_theme_sidebar_loaded, rendered_theme_theme_loaded.
    unfold stored_theme in *. rewrite localStorage_theme_loaded in *.
    unfold initial_theme, stored_theme. rewrite Htruthy.
    cbn [localStorage page] in *. by destruct (st !! "theme").
  - intros ev w _. apply theme_in_step_after_event.
  - by exists w.
Qed.

Lemma sidebar_in_step_clicked s c b w :
  valid (document w) s → valid (document w) c →
  sidebar_in_step s c (clicked s c b w).
Proof.
  intros Hs Hc st. unfold clicked, sidebar_in_state.
  destruct (has_class w s "is-collapsed").
  - destruct (expanded_classes s c b w) as [-> ->].
    destruct (expanded_stored s c b w) as [-> _]. by destruct st.
  - destruct (collapsed_classes s c b w Hs Hc) as [-> ->].
    destruct (collapsed_stored s c b w) as [-> _]. by destruct st.
Qed.

Lemma sidebar_in_step_after_event d s c b ev w :
  sidebar_handles d s c b → loaded d w →
  sidebar_in_step s c w → sidebar_in_step s c (after_event d ev w).
Proof.
  intros Hh Hl Hw. pose proof Hh as (Hs & Hc & Hb).
  destruct ev as [h|h]; cbn [after_event].
  - assert (sidebar_in_step s c (modify_node h flip_checked w)) as Hflip.
    { intros st. unfold sidebar_in_state.
      destruct (flipped_frame w h s "is-collapsed" "") as (-> & _ & _).
      destruct (flipped_frame w h c "is-collapsed" "") as (-> & _ & _).
      apply Hw. }
    case_bool_decide; [|done]. intros st. unfold sidebar_in_state.
    destruct (toggled_frame (modify_node h flip_checked w) s "is-collapsed" "")
      as (-> & _ & _ & ->); [done|].
    destruct (toggled_frame (modify_node h flip_checked w) c "is-collapsed" "")
      as (-> & _); [done|].
    apply Hflip.
  - rewrite Hs, Hc, Hb. case_bool_decide; [|done].
    apply sidebar_in_step_clicked; by eapply loaded_valid.
Qed.

(** X3. On a page with all three sidebar elements that is rendered
    expanded (neither the sidebar nor the container carries the marker
    class), at every point of a session a stored ["collapsed"] means
    both elements carry the marker and a stored ["expanded"] means
    neither does. *)
Theorem stored_sidebar_is_rendered_throughout (d : Document)
    (st : gmap string string) (mm : option (string → bool))
    (evs : list UserEvent) (s c b : Handle) :
  sidebar_handles d s c b →
  has_class (page d st mm) s "is-collapsed" = false →
  has_class (page d st mm) c "is-collapsed" = false →
  ∃ w, (load ;;; user_events evs) (page d st mm) = Normal tt w
    ∧ (stored_sidebarState w = Some "collapsed" →
         has_class w s "is-collapsed" = true
         ∧ has_class w c "is-collapsed" = true)
    ∧ (stored_sidebarState w = Some "expanded" →
         has_class w s "is-collapsed" = false
         ∧ has_class w c "is-collapsed" = false).
Proof.
  intros Hh Hs0 Hc0. set (w0 := page d st mm) in *.
  destruct (session_invariant d st mm (sidebar_in_step s c)) with (evs := evs)
    as (w & Hrun & _ & Hw).
  - fold w0. set (w1 := theme_loaded w0).
    assert (sidebar_handles (document w1) s c b) as Hh1
      by by apply sidebar_handles_theme_loaded.
    pose proof Hh1 as (Hs & Hc & Hb).
    assert (has_class w1 s "is-collapsed" = false) as Hs1
      by (unfold w1; by destruct (theme_loaded_frame w0 s "is-collapsed" "") as [-> _]).
    assert (has_class w1 c "is-collapsed" = false) as Hc1
      by (unfold w1; by destruct (theme_loaded_frame w0 c "is-collapsed" "") as [-> _]).
    intros state. unfold sidebar_in_state.
    unfold stored_sidebarState. rewrite localStorage_sidebar_loaded.
    fold (stored_sidebarState w1).
    rewrite (sidebar_loaded_present w1 s c b Hh1). frame_tac.
    case_bool_decide as Hst.
    + set (w2 := log (EGetItem "sidebarState") w1).
      destruct (collapsed_classes s c b w2) as [-> ->];
        [by eapply valid_find_by_id..|].
      rewrite Hst. by destruct state.
    + frame_tac. rewrite Hs1, Hc1. destruct state; [done|].
      by intros ->.
  - intros ev w Hl. by eapply sidebar_in_step_after_event.
  - exists w. split; [done|]. split; intros Hst.
    + by destruct (Hw Collapsed Hst) as (? & ? & _).
    + by destruct (Hw Expanded Hst) as (? & ? & _).
Qed.

Lemma rendered_dark_toggled w :
  bool_decide (rendered_theme (toggled w) = Some "dark")
  = negb (bool_decide (rendered_theme w = Some "dark")).
Proof.
  rewrite rendered_theme_toggled, toggled_theme_cases.
  by destruct (bool_decide (rendered_theme w = Some "dark")).
Qed.

Lemma checkbox_in_step_after_event d cb ev w :
  find_by_id d "theme-toggle-checkbox" = Some cb → loaded d w →
  checkbox_in_step cb w → checkbox_in_step cb (after_event d ev w).
Proof.
  unfold checkbox_in_step. intros Hcb Hl Hw.
  destruct ev as [h|h]; cbn [after_event].
  - destruct (decide (h = cb)) as [->|Hne].
    + rewrite bool_decide_eq_true_2 by done.
      destruct (toggled_frame (modify_node cb flip_checked w) cb "" "")
        as (_ & _ & -> & _); [done|].
      rewrite rendered_dark_toggled, rendered_theme_flipped, <- Hw.
      rewrite is_checked_flipped by by eapply loaded_valid.
      by rewrite bool_decide_eq_true_2.
    + rewrite bool_decide_eq_false_2 by congruence.
      by rewrite is_checked_flipped_other, rendered_theme_flipped.
  - destruct (find_by_id d "main-sidebar") as [s|]; [|done].
    destruct (find_by_id d "main-container") as [c|]; [|done].
    destruct (find_by_id d "sidebar-toggle-button") as [b|]; [|done].
    destruct (decide (b = h)) as [->|Hne];
      [rewrite (bool_decide_eq_true_2 (h = h)) by done
      |by rewrite (bool_decide_eq_false_2 (b = h)) by done].
    rewrite rendered_theme_clicked.
    by destruct (clicked_frame s c h w cb "data-theme") as (_ & -> & _).
Qed.

(** X4. On a page whose theme checkbox is rendered unchecked and
    whose root is not rendered with [data-theme = "dark"], the checkbox
    is checked exactly when the page is dark, at every point of a
    session: after the load and after every change and click. *)
Theorem checkbox_shows_theme_throughout (d : Document)
    (st : gmap string string) (mm : option (string → bool))
    (evs : list UserEvent) (cb : Handle) :
  find_by_id d "theme-toggle-checkbox" = Some cb →
  is_checked (page d st mm) cb = false →
  rendered_theme (page d st mm) ≠ Some "dark" →
  ∃ w, (load ;;; user_events evs) (page d st mm) = Normal tt w
    ∧ (is_checked w cb = true ↔ rendered_theme w = Some "dark").
Proof.
  intros Hcb Hunchecked Hnotdark. set (w0 := page d st mm) in *.
  destruct (session_invariant d st mm (checkbox_in_step cb)) with (evs := evs)
    as (w & Hrun & _ & Hw).
  - fold w0. unfold checkbox_in_step.
    destruct (sidebar_loaded_frame (theme_loaded w0) cb "data-theme") as [_ ->];
      [done..|].
    rewrite rendered_theme_sidebar_loaded, rendered_theme_theme_loaded.
    rewrite is_checked_theme_loaded, Hunchecked.
    rewrite (bool_decide_eq_true_2 (find_by_id _ _ = _)) by done.
    cbn [orb andb]. destruct (initial_theme w0) as [t|]; [done|].
    rewrite (bool_decide_eq_false_2 (None = _)) by done.
    by rewrite bool_decide_eq_false_2.
  - intros ev w Hl. by eapply checkbox_in_step_after_event.
  - exists w. split; [done|]. unfold checkbox_in_step in Hw. rewrite Hw.
    apply bool_decide_eq_true.
Qed.

(** ** Reloading the page *)

(** X5. The theme a user toggles to survives a reload.  After any
    session that ends with a change of the theme checkbox, loading any
    page with the store that session left behind renders the same
    theme, whatever the system preference says; a checkbox rendered
    unchecked on the new page is checked exactly when that theme is
    dark. *)
Theorem toggled_theme_survives_reload (d : Document) (st : gmap string string)
    (mm : option (string → bool)) (evs : list UserEvent) (cb : Handle)
    (d' : Document) (mm' : option (string → bool)) :
  find_by_id d "theme-toggle-checkbox" = Some cb →
  ∃ w w',
    (load ;;; user_events evs ;;; user_event (Change cb)) (page d st mm)
      = Normal tt w
    ∧ load (page d' (localStorage w) mm') = Normal tt w'
    ∧ rendered_theme w' = rendered_theme w
    ∧ (∀ cb', find_by_id d' "theme-toggle-checkbox" = Some cb' →
         is_checked (page d' (localStorage w) mm') cb' = false →
         (is_checked w' cb' = true ↔ rendered_theme w = Some "dark")).
Proof.
  intros Hcb.
  destruct (session_invariant d st mm (λ _, True) I (λ _ _ _ _, I) evs)
    as (w1 & Hrun & Hl & _).
  set (w := toggled (modify_node cb flip_checked w1)).
  set (p := page d' (localStorage w) mm').
  exists w, (sidebar_loaded (theme_loaded p)).
  assert (initial_theme p = Some (toggled_theme (modify_node cb flip_checked w1)))
    as Hinit.
  { unfold initial_theme, stored_theme, p. cbn [localStorage page].
    fold (stored_theme w). unfold w. rewrite stored_theme_toggled.
    unfold toggled_theme. by case_bool_decide. }
  split; [|split; [apply load_runs|split]].
  - rewrite <- js_bind_assoc.
    rewrite (js_bind_normal _ _ _ _ _ Hrun).
    apply (change_checkbox_runs d w1 cb Hl Hcb).
  - rewrite rendered_theme_sidebar_loaded, rendered_theme_theme_loaded, Hinit.
    unfold w. by rewrite rendered_theme_toggled.
  - intros cb' Hcb' Hunchecked.
    destruct (sidebar_loaded_frame (theme_loaded p) cb' "data-theme") as [_ ->];
      [done..|].
    fold p in Hunchecked. rewrite is_checked_theme_loaded, Hunchecked, Hinit.
    rewrite (bool_decide_eq_true_2 (find_by_id _ _ = _)) by done.
    cbn [orb andb]. unfold w. rewrite rendered_theme_toggled.
    apply bool_decide_eq_true.
Qed.

(** X6. The sidebar state a user clicks to survives a reload.  After
    any session that ends with a click on the toggle button, loading a
    page that is rendered expanded with the store that session left
    behind shows the marker class on the sidebar and on the container
    exactly when the sidebar carried it at the end of the session. *)
Theorem clicked_sidebar_survives_reload (d : Document) (st : gmap string string)
    (mm : option (string → bool)) (evs : list UserEvent) (s c b : Handle)
    (d' : Document) (mm' : option (string → bool)) (s' c' b' : Handle) :
  sidebar_handles d s c b →
  sidebar_handles d' s' c' b' →
  has_class (page d' ∅ None) s' "is-collapsed" = false →
  has_class (page d' ∅ None) c' "is-collapsed" = false →
  ∃ w w',
    (load ;;; user_events evs ;;; user_event (Click b)) (page d st mm)
      = Normal tt w
    ∧ load (page d' (localStorage w) mm') = Normal tt w'
    ∧ has_class w' s' "is-collapsed" = has_class w s "is-collapsed"
    ∧ has_class w' c' "is-collapsed" = has_class w s "is-collapsed".
Proof.
  intros Hh Hh' Hs0 Hc0.
  destruct (session_invariant d st mm (λ _, True) I (λ _ _ _ _, I) evs)
    as (w1 & Hrun & Hl & _).
  set (w := clicked s c b w1).
  set (p := page d' (localStorage w) mm').
  exists w, (sidebar_loaded (theme_loaded p)).
  split; [|split; [apply load_runs|]].
  { rewrite <- js_bind_assoc.
    rewrite (js_bind_normal _ _ _ _ _ Hrun).
    apply (click_button_runs d w1 s c b Hl Hh). }
  pose proof Hh as (Hs & Hc & Hb).
  assert (valid (document w1) s) as Hvs by by eapply loaded_valid.
  assert (valid (document w1) c) as Hvc by by eapply loaded_valid.
  set (p1 := theme_loaded p).
  assert (sidebar_handles (document p1) s' c' b') as Hh1
    by by apply sidebar_handles_theme_loaded.
  pose proof Hh1 as (Hs' & Hc' & Hb').
  assert (has_class p1 s' "is-collapsed" = false) as Hs1
    by (unfold p1; by destruct (theme_loaded_frame p s' "is-collapsed" "") as [-> _]).
  assert (has_class p1 c' "is-collapsed" = false) as Hc1
    by (unfold p1; by destruct (theme_loaded_frame p c' "is-collapsed" "") as [-> _]).
  assert (stored_sidebarState p1 = stored_sidebarState w) as Hst
    by (unfold stored_sidebarState, p1; by rewrite localStorage_theme_loaded).
  rewrite (sidebar_loaded_present p1 s' c' b' Hh1), Hst. frame_tac.
  unfold w, clicked. destruct (has_class w1 s "is-collapsed") eqn:Hmark.
  - destruct (expanded_stored s c b w1) as [-> _].
    destruct (expanded_classes s c b w1) as [-> _].
    rewrite bool_decide_eq_false_2 by done. by frame_tac.
  - destruct (collapsed_stored s c b w1) as [-> _].
    destruct (collapsed_classes s c b w1 Hvs Hvc) as [-> _].
    rewrite bool_decide_eq_true_2 by done.
    apply collapsed_classes; by eapply valid_find_by_id.
Qed.

(** ** Round trips of the handlers *)

Lemma document_eta (d : Document) :
  mkDocument (documentElement d) (descendants d) = d.
Proof. by destruct d. Qed.

Lemma nodes_inj (d d' : Document) : nodes d = nodes d' → d = d'.
Proof. destruct d, d'. unfold nodes; cbn. by intros [= -> ->]. Qed.

Lemma toggled_twice_theme w (v : Theme) :
  rendered_theme w = Some (theme_name v) →
  toggled_theme w = theme_name (opposite v)
  ∧ toggled_theme (toggled w) = theme_name v.
Proof.
  intros Hv. rewrite !toggled_theme_cases, rendered_theme_toggled.
  rewrite toggled_theme_cases, Hv. by destruct v.
Qed.

(** X7. Two runs of [toggleTheme] from a page rendered light or dark
    give back the document exactly as it was, and leave the original
    theme under the [theme] key. *)
Theorem toggleTheme_twice_restores (w : World) (v : Theme) :
  rendered_theme w = Some (theme_name v) →
  ∃ w', (toggleTheme ;;; toggleTheme) w = Normal tt w'
    ∧ document w' = document w
    ∧ localStorage w' = <["theme" := theme_name v]> (localStorage w).
Proof.
  intros Hv. exists (toggled (toggled w)).
  destruct (toggled_twice_theme w v Hv) as [H1 H2].
  split; [|split].
  - rewrite (js_bind_normal _ _ _ _ _ (toggleTheme_runs _)).
    apply toggleTheme_runs.
  - unfold toggled at 1. rewrite H2. unfold toggled. world_projections.
    apply nodes_inj. rewrite !nodes_update_node. unfold nodes. cbn [alter list_alter].
    f_equal. unfold rendered_theme in Hv.
    destruct (documentElement (document w)) as [attrs cls chk].
    unfold with_attribute; cbn in *. f_equal.
    rewrite insert_insert_eq. by apply insert_id.
  - unfold toggled at 1. rewrite H2. unfold toggled. world_projections.
    apply insert_insert_eq.
Qed.

(** Case analysis on whether a class membership is one of the two the
    sidebar operations write. *)
Ltac class_cases Hmark Hsync :=
  rewrite ?Hmark in Hsync;
  repeat match goal with
    | |- context [bool_decide (?x = ?y)] =>
        destruct (decide (x = y));
        [ subst; rewrite ?(bool_decide_eq_true_2 (y = y)) by done
        | rewrite (bool_decide_eq_false_2 (x = y)) by done ]
    end;
  rewrite ?Hmark, <- ?Hsync; cbn [andb orb negb];
  rewrite ?andb_true_r, ?orb_false_r, ?orb_true_r, ?andb_false_r.

(** X8. Two clicks on the toggle button, at any point of a session,
    leave [sidebarState] naming the state the sidebar showed before
    them and the marker on the sidebar as it was.  When the sidebar
    and the container agreed on the marker before the clicks, every
    class membership of every element is as it was. *)
Theorem two_clicks_restore_classes (d : Document) (st : gmap string string)
    (mm : option (string → bool)) (evs : list UserEvent) (s c b : Handle) :
  sidebar_handles d s c b →
  ∃ w w',
    (load ;;; user_events evs) (page d st mm) = Normal tt w
    ∧ (user_event (Click b) ;;; user_event (Click b)) w = Normal tt w'
    ∧ stored_sidebarState w' = Some (rendered_sidebar w s)
    ∧ has_class w' s "is-collapsed" = has_class w s "is-collapsed"
    ∧ (has_class w s "is-collapsed" = has_class w c "is-collapsed" →
         ∀ h cl, has_class w' h cl = has_class w h cl).
Proof.
  intros Hh.
  destruct (session_invariant d st mm (λ _, True) I (λ _ _ _ _, I) evs)
    as (w & Hrun & Hl & _).
  pose proof Hh as (Hs & Hc & Hb).
  assert (valid (document w) s) as Hvs by by eapply loaded_valid.
  assert (valid (document w) c) as Hvc by by eapply loaded_valid.
  set (w1 := clicked s c b w).
  assert (loaded d w1) as Hl1 by by apply loaded_clicked.
  assert (valid (document w1) s) as Hvs1 by by eapply loaded_valid.
  assert (valid (document w1) c) as Hvc1 by by eapply loaded_valid.
  exists w, (clicked s c b w1). split; [done|]. split.
  { rewrite (js_bind_normal _ _ _ _ _ (click_button_runs d w s c b Hl Hh)).
    apply (click_button_runs d w1 s c b Hl1 Hh). }
  unfold rendered_sidebar. unfold clicked.
  destruct (has_class w s "is-collapsed") eqn:Hmark.
  - assert (w1 = expanded s c b w) as Hw1 by (unfold w1, clicked; by rewrite Hmark).
    destruct (expanded_classes s c b w) as [Hes _]. rewrite <- Hw1 in Hes.
    rewrite Hes.
    destruct (collapsed_stored s c b w1) as [-> _].
    destruct (collapsed_classes s c b w1 Hvs1 Hvc1) as [-> _].
    split; [done|]. split; [done|]. intros Hsync h cl.
    rewrite has_class_collapsed, Hw1, has_class_expanded by done.
    by class_cases Hmark Hsync.
  - assert (w1 = collapsed s c b w) as Hw1 by (unfold w1, clicked; by rewrite Hmark).
    destruct (collapsed_classes s c b w Hvs Hvc) as [Hcs _]. rewrite <- Hw1 in Hcs.
    rewrite Hcs.
    destruct (expanded_stored s c b w1) as [-> _].
    destruct (expanded_classes s c b w1) as [-> _].
    split; [done|]. split; [done|]. intros Hsync h cl.
    rewrite has_class_expanded, Hw1, has_class_collapsed by done.
    by class_cases Hmark Hsync.
Qed.

(** ** The two controllers do not interfere *)

Lemma update_node_commute i j (f g : Element → Element) (d : Document) :
  (∀ e, f (g e) = g (f e)) →
  update_node i f (update_node j g d) = update_node j g (update_node i f d).
Proof.
  intros Hfg. apply nodes_inj. rewrite !nodes_update_node.
  apply list_eq. intros k. rewrite !list_lookup_alter.
  repeat case_decide; subst; rewrite ?list_lookup_alter_eq, ?list_lookup_alter_ne by done;
    try done.
  destruct (nodes d !! k); cbn; by rewrite ?Hfg.
Qed.

Lemma with_attribute_commute n1 v1 n2 v2 e :
  n1 ≠ n2 →
  with_attribute n1 v1 (with_attribute n2 v2 e)
  = with_attribute n2 v2 (with_attribute n1 v1 e).
Proof. intros Hne. unfold with_attribute; cbn. f_equal. by apply insert_insert_ne. Qed.

Lemma toggled_theme_clicked s c b w :
  toggled_theme (clicked s c b w) = toggled_theme w.
Proof. by rewrite !toggled_theme_cases, rendered_theme_clicked. Qed.

Lemma clicked_toggled_commute s c b w :
  document (toggled (clicked s c b w)) = document (clicked s c b (toggled w))
  ∧ localStorage (toggled (clicked s c b w))
    = localStorage (clicked s c b (toggled w)).
Proof.
  set (v := toggled_theme w).
  assert (toggled (clicked s c b w)
          = put_item "theme" v (put_attribute 0 "data-theme" v (clicked s c b w)))
    as -> by (unfold toggled; by rewrite toggled_theme_clicked).
  unfold clicked.
  destruct (toggled_frame w s "is-collapsed" "") as (-> & _); [done|].
  destruct (has_class w s "is-collapsed");
    unfold expanded, collapsed, toggled; fold v; world_projections.
  - split; [|by apply insert_insert_ne].
    rewrite (update_node_commute 0 b) by (intros e; by apply with_attribute_commute).
    f_equal.
    rewrite (update_node_commute 0 b) by (intros e; by apply with_attribute_commute).
    f_equal.
    rewrite (update_node_commute 0 c) by done. f_equal.
    by rewrite (update_node_commute 0 s) by done.
  - split; [|by apply insert_insert_ne].
    rewrite (update_node_commute 0 b) by (intros e; by apply with_attribute_commute).
    f_equal.
    rewrite (update_node_commute 0 b) by (intros e; by apply with_attribute_commute).
    f_equal.
    rewrite (update_node_commute 0 c) by done. f_equal.
    by rewrite (update_node_commute 0 s) by done.
Qed.

(** X9. The theme handler and the sidebar click listener commute:
    run in either order on handles that denote elements, they end
    with the same document, the same store and the same listener
    table, even when one of the three sidebar elements is the root
    element itself. *)
Theorem handlers_commute (w : World) (s c b : Handle) :
  valid (document w) s → valid (document w) c → valid (document w) b →
  ∃ w1 w2,
    (sidebar_click (Some s) (Some c) (Some b) ;;; toggleTheme) w = Normal tt w1
    ∧ (toggleTheme ;;; sidebar_click (Some s) (Some c) (Some b)) w = Normal tt w2
    ∧ document w1 = document w2
    ∧ localStorage w1 = localStorage w2
    ∧ listeners w1 = listeners w2.
Proof.
  intros Hs Hc Hb.
  exists (toggled (clicked s c b w)), (clicked s c b (toggled w)).
  destruct (clicked_toggled_commute s c b w) as [Hdoc Hst].
  split; [|split; [|split; [done|split; [done|]]]].
  - rewrite (js_bind_normal _ _ _ _ _ (sidebar_click_runs s c b w Hs Hc Hb)).
    apply toggleTheme_runs.
  - rewrite (js_bind_normal _ _ _ _ _ (toggleTheme_runs w)).
    apply sidebar_click_runs; unfold toggled; world_projections;
      by apply valid_update_node.
  - rewrite listeners_clicked. unfold toggled. world_projections.
    by rewrite listeners_clicked.
Qed.

Lemma node_collapsed s c b w h :
  h ≠ s → h ≠ c → h ≠ b → node (collapsed s c b w) h = node w h.
Proof.
  intros Hs Hc Hb. unfold collapsed.
  rewrite node_put_item, !node_put_attribute, !node_put_class.
  by rewrite !decide_False by done.
Qed.

Lemma node_expanded s c b w h :
  h ≠ s → h ≠ c → h ≠ b → node (expanded s c b w) h = node w h.
Proof.
  intros Hs Hc Hb. unfold expanded.
  rewrite node_put_item, !node_put_attribute, !node_drop_class.
  by rewrite !decide_False by done.
Qed.

(** X10. The click listener changes nothing but its own: elements
    other than the sidebar, the container and the button are left as
    they are; on every element every class other than the marker,
    every attribute other than [aria-expanded] and [aria-label] and
    the [checked] flag are kept; every storage key other than
    [sidebarState] keeps its value; no listener is added. *)
Theorem sidebar_click_touches_only_its_own (w : World) (s c b : Handle) :
  valid (document w) s → valid (document w) c → valid (document w) b →
  ∃ w', sidebar_click (Some s) (Some c) (Some b) w = Normal tt w'
    ∧ (∀ h, h ≠ s → h ≠ c → h ≠ b → node w' h = node w h)
    ∧ (∀ h cl, cl ≠ "is-collapsed" → has_class w' h cl = has_class w h cl)
    ∧ (∀ h name, name ≠ "aria-expanded" → name ≠ "aria-label" →
         attribute_of w' h name = attribute_of w h name)
    ∧ (∀ h, is_checked w' h = is_checked w h)
    ∧ (∀ key, key ≠ "sidebarState" →
         localStorage w' !! key = localStorage w !! key)
    ∧ listeners w' = listeners w.
Proof.
  intros Hs Hc Hb. exists (clicked s c b w).
  split; [by apply sidebar_click_runs|].
  split; [|split; [|split; [|split; [|split]]]].
  - intros h ? ? ?. unfold clicked.
    destruct (has_class w s _); [by apply node_expanded|by apply node_collapsed].
  - intros h cl Hcl. unfold clicked. destruct (has_class w s _).
    + rewrite has_class_expanded, (bool_decide_eq_false_2 (cl = _)) by done.
      by rewrite andb_true_r.
    + rewrite has_class_collapsed, (bool_decide_eq_false_2 (cl = _)) by done.
      by rewrite orb_false_r.
  - intros h name H1 H2. by destruct (clicked_frame s c b w h name H1 H2) as (-> & _).
  - intros h. by destruct (clicked_frame s c b w h "") as (_ & -> & _).
  - intros key Hkey. unfold clicked, expanded, collapsed.
    destruct (has_class w s _); world_projections; by rewrite lookup_insert_ne.
  - apply listeners_clicked.
Qed.

(** X11. [toggleTheme] changes nothing but its own: every element
    below the root is left as it is; the root keeps its class list,
    its [checked] flag and every attribute other than [data-theme];
    every storage key other than [theme] keeps its value; no listener
    is added. *)
Theorem toggleTheme_touches_only_its_own (w : World) :
  ∃ w', toggleTheme w = Normal tt w'
    ∧ descendants (document w') = descendants (document w)
    ∧ classList (documentElement (document w'))
      = classList (documentElement (document w))
    ∧ checked (documentElement (document w'))
      = checked (documentElement (document w))
    ∧ (∀ name, name ≠ "data-theme" →
         attributes (documentElement (document w')) !! name
         = attributes (documentElement (document w)) !! name)
    ∧ (∀ key, key ≠ "theme" → localStorage w' !! key = localStorage w !! key)
    ∧ listeners w' = listeners w.
Proof.
  exists (toggled w). split; [apply toggleTheme_runs|].
  unfold toggled. world_projections. cbn [update_node documentElement descendants
    with_attribute classList checked attributes].
  repeat split; try done.
  - intros name Hne. by rewrite lookup_insert_ne.
  - intros key Hne. by rewrite lookup_insert_ne.
Qed.

(** ** Edge cases of the initialisation *)

Lemma document_theme_loaded_ext w w' :
  document w = document w' → initial_theme w = initial_theme w' →
  document (theme_loaded w) = document (theme_loaded w')
  ∧ listeners (theme_loaded w) = listeners w ++ theme_listeners (document w').
Proof.
  intros Hd Hi. rewrite listeners_theme_loaded, Hd. split; [|done].
  unfold theme_loaded. rewrite Hd, Hi.
  destruct (find_by_id (document w') _), (initial_theme w');
    try case_bool_decide; world_projections; by rewrite ?Hd.
Qed.

Lemma document_sidebar_loaded_ext w w' :
  document w = document w' → stored_sidebarState w = stored_sidebarState w' →
  document (sidebar_loaded w) = document (sidebar_loaded w').
Proof.
  intros Hd Hst. unfold sidebar_loaded. rewrite Hd, Hst.
  destruct (find_by_id (document w') "main-sidebar"),
    (find_by_id (document w') "main-container"),
    (find_by_id (document w') "sidebar-toggle-button"); try done.
  case_bool_decide; unfold collapsed; world_projections; by rewrite Hd.
Qed.

(** X12. An empty string stored under [theme] counts as no stored
    theme: the load renders the same document and registers the same
    listeners as with the key removed, so the system preference
    decides.  The empty string itself stays in the store. *)
Theorem empty_stored_theme_is_ignored (d : Document) (st : gmap string string)
    (mm : option (string → bool)) :
  st !! "theme" = Some "" →
  ∃ w w0, load (page d st mm) = Normal tt w
    ∧ load (page d (delete "theme" st) mm) = Normal tt w0
    ∧ document w = document w0
    ∧ listeners w = listeners w0
    ∧ localStorage w = st.
Proof.
  intros Hst. set (p := page d st mm). set (p0 := page d (delete "theme" st) mm).
  exists (sidebar_loaded (theme_loaded p)), (sidebar_loaded (theme_loaded p0)).
  split; [apply load_runs|]. split; [apply load_runs|].
  assert (initial_theme p = initial_theme p0) as Hinit.
  { unfold initial_theme, stored_theme, system_prefers_dark, p, p0.
    cbn [localStorage matchMedia page]. by rewrite Hst, lookup_delete_eq. }
  destruct (document_theme_loaded_ext p p0 eq_refl Hinit) as [Hdoc Hls].
  assert (stored_sidebarState (theme_loaded p) = stored_sidebarState (theme_loaded p0))
    as Hside.
  { unfold stored_sidebarState. rewrite !localStorage_theme_loaded.
    unfold p, p0. cbn [localStorage page]. by rewrite lookup_delete_ne. }
  split; [by apply document_sidebar_loaded_ext|]. split.
  - rewrite !listeners_sidebar_loaded, Hdoc. f_equal.
    by rewrite Hls, listeners_theme_loaded.
  - by rewrite localStorage_sidebar_loaded, localStorage_theme_loaded.
Qed.

(** X13. When no usable theme is stored and the system does not
    report a dark preference, be it that it prefers light or that
    [window.matchMedia] does not exist, the theme initialisation
    completes without touching the document or the store: no
    attribute is written and the checkbox is left alone. *)
Theorem theme_init_without_preference (d : Document) (st : gmap string string)
    (mm : option (string → bool)) :
  truthy (st !! "theme") = false →
  media_matches mm "(prefers-color-scheme: dark)" = false →
  ∃ w, theme_module (page d st mm) = Normal tt w
    ∧ document w = d
    ∧ localStorage w = st.
Proof.
  intros Hst Hmm. exists (theme_loaded (page d st mm)).
  split; [apply theme_module_runs|]. split; [|apply localStorage_theme_loaded].
  unfold theme_loaded.
  assert (initial_theme (page d st mm) = None) as ->.
  { unfold initial_theme, stored_theme, system_prefers_dark.
    cbn [localStorage matchMedia page]. by rewrite Hst, Hmm. }
  by destruct (find_by_id _ _).
Qed.

(** ** What the script never does *)

Lemma script_write_no_write evs :
  Forall (λ ev, writes_storage ev = false) evs → Forall script_write evs.
Proof. intros H. eapply Forall_impl; [done|]. by intros []. Qed.

Lemma script_write_toggled_theme w :
  script_write (ESetItem "theme" (toggled_theme w)).
Proof.
  left. split; [done|]. unfold toggled_theme.
  case_bool_decide; [by exists Light|by exists Dark].
Qed.

Lemma store_confined_toggled st w :
  store_confined st w → store_confined st (toggled w).
Proof.
  intros [Htr Hst]. split.
  - rewrite trace_toggled. apply Forall_app. split; [done|].
    constructor; [exact I|]. constructor; [|constructor].
    apply script_write_toggled_theme.
  - intros key H1 H2. unfold toggled. world_projections.
    rewrite lookup_insert_ne by done. by apply Hst.
Qed.

Lemma store_confined_collapsed st s c b w :
  store_confined st w → store_confined st (collapsed s c b w).
Proof.
  intros [Htr Hst]. unfold collapsed. split; world_projections.
  - rewrite <- !app_assoc. apply Forall_app. split; [done|].
    do 4 (constructor; [exact I|]). constructor; [|constructor].
    right. split; [done|]. by exists Collapsed.
  - intros key H1 H2. rewrite lookup_insert_ne by done. by apply Hst.
Qed.

Lemma store_confined_expanded st s c b w :
  store_confined st w → store_confined st (expanded s c b w).
Proof.
  intros [Htr Hst]. unfold expanded. split; world_projections.
  - rewrite <- !app_assoc. apply Forall_app. split; [done|].
    do 4 (constructor; [exact I|]). constructor; [|constructor].
    right. split; [done|]. by exists Expanded.
  - intros key H1 H2. rewrite lookup_insert_ne by done. by apply Hst.
Qed.

Lemma store_confined_after_event st d ev w :
  store_confined st w → store_confined st (after_event d ev w).
Proof.
  intros Hw. destruct ev as [h|h]; cbn [after_event].
  - case_bool_decide; [by apply store_confined_toggled|done].
  - destruct (find_by_id d "main-sidebar") as [s|]; [|done].
    destruct (find_by_id d "main-container") as [c|]; [|done].
    destruct (find_by_id d "sidebar-toggle-button") as [b|]; [|done].
    case_bool_decide; [|done]. unfold clicked.
    destruct (has_class w s _);
      [by apply store_confined_expanded|by apply store_confined_collapsed].
Qed.

Lemma store_confined_after_load d st mm :
  store_confined st (sidebar_loaded (theme_loaded (page d st mm))).
Proof.
  set (p := page d st mm).
  assert (store_confined st (theme_loaded p)) as [Htr Hst].
  { split; [|intros key _ _; by rewrite localStorage_theme_loaded].
    destruct (trace_theme_loaded p) as (evs & -> & Hevs & _).
    constructor; [done|]. by apply script_write_no_write. }
  split; [|intros key H1 H2; rewrite localStorage_sidebar_loaded; by apply Hst].
  destruct (sidebar_handles_dec (document (theme_loaded p))) as [(s & c & b & Hh)|Hno];
    [|by rewrite sidebar_loaded_absent].
  rewrite (trace_sidebar_loaded _ s c b Hh).
  repeat (apply Forall_app; split); try done.
  - constructor; [exact I|constructor].
  - case_bool_decide; [|constructor].
    do 4 (constructor; [exact I|]). constructor; [|constructor].
    right. split; [done|]. by exists Collapsed.
  - constructor; [exact I|constructor].
Qed.

(** X15. Whatever the page and whatever the user does, the script
    writes to the store only a theme name (["light"] or ["dark"])
    under [theme] and a state name (["collapsed"] or ["expanded"])
    under [sidebarState]; every other key of the store keeps the value
    it had before the page was loaded. *)
Theorem storage_writes_are_confined (d : Document) (st : gmap string string)
    (mm : option (string → bool)) (evs : list UserEvent) :
  ∃ w, (load ;;; user_events evs) (page d st mm) = Normal tt w
    ∧ (∀ key value, ESetItem key value ∈ trace w →
         (key = "theme" ∧ (value = "light" ∨ value = "dark"))
         ∨ (key = "sidebarState" ∧ (value = "collapsed" ∨ value = "expanded")))
    ∧ (∀ key, key ≠ "theme" → key ≠ "sidebarState" →
         localStorage w !! key = st !! key).
Proof.
  destruct (session_invariant d st mm (store_confined st)) with (evs := evs)
    as (w & Hrun & _ & Htr & Hst).
  - apply store_confined_after_load.
  - intros ev w _. apply store_confined_after_event.
  - exists w. split; [done|]. split; [|done].
    intros key value Hin. rewrite Forall_forall in Htr.
    destruct (Htr _ Hin) as [[-> [v ->]]|[-> [state ->]]].
    + left. split; [done|]. destruct v; eauto.
    + right. split; [done|]. destruct state; eauto.
Qed.

(** * The further properties on concrete pages *)

(** X2 on the dashboard page with a stored dark theme. *)
Lemma stored_dark_is_rendered_after_events :
  ∃ w, (load ;;; user_events [Click 4; Change 1; Change 1])
         (page dashboard {[ "theme" := "dark" ]} prefers_light) = Normal tt w
    ∧ truthy (stored_theme w) = true
    ∧ rendered_theme w = stored_theme w.
Proof.
  destruct (stored_theme_is_rendered_throughout dashboard {[ "theme" := "dark" ]}
              prefers_light [Click 4; Change 1; Change 1]) as (w & Hrun & Hstep).
  exists w. split; [exact Hrun|].
  assert (truthy (stored_theme w) = true) as Htruthy
    by (vm_compute in Hrun; injection Hrun as <-; reflexivity).
  split; [exact Htruthy|exact (Hstep Htruthy)].
Defined.

(** X3 on the dashboard page with a stored collapsed sidebar. *)
Lemma stored_collapsed_is_rendered_after_events :
  sidebar_handles dashboard 2 3 4
  ∧ has_class (page dashboard {[ "sidebarState" := "collapsed" ]} None) 2
      "is-collapsed" = false
  ∧ has_class (page dashboard {[ "sidebarState" := "collapsed" ]} None) 3
      "is-collapsed" = false
  ∧ ∃ w, (load ;;; user_events [Click 4; Click 4; Change 1])
           (page dashboard {[ "sidebarState" := "collapsed" ]} None) = Normal tt w
      ∧ stored_sidebarState w = Some "collapsed"
      ∧ has_class w 2 "is-collapsed" = true
      ∧ has_class w 3 "is-collapsed" = true.
Proof.
  assert (sidebar_handles dashboard 2 3 4) as Hh by (repeat split).
  split; [exact Hh|]. split; [reflexivity|]. split; [reflexivity|].
  destruct (stored_sidebar_is_rendered_throughout dashboard
              {[ "sidebarState" := "collapsed" ]} None
              [Click 4; Click 4; Change 1] 2 3 4 Hh eq_refl eq_refl)
    as (w & Hrun & Hcollapsed & _).
  exists w. split; [exact Hrun|].
  assert (stored_sidebarState w = Some "collapsed") as Hst
    by (vm_compute in Hrun; injection Hrun as <-; reflexivity).
  split; [exact Hst|exact (Hcollapsed Hst)].
Defined.

(** X4 on the dashboard page with a dark system preference. *)
Lemma checkbox_shows_theme_on_dashboard :
  find_by_id dashboard "theme-toggle-checkbox" = Some 1
  ∧ is_checked (page dashboard ∅ prefers_dark) 1 = false
  ∧ rendered_theme (page dashboard ∅ prefers_dark) ≠ Some "dark"
  ∧ ∃ w, (load ;;; user_events [Change 1; Click 4; Change 1; Change 1])
           (page dashboard ∅ prefers_dark) = Normal tt w
      ∧ (is_checked w 1 = true ↔ rendered_theme w = Some "dark").
Proof.
  split; [reflexivity|]. split; [reflexivity|]. split; [discriminate|].
  apply (checkbox_shows_theme_throughout dashboard ∅ prefers_dark
           [Change 1; Click 4; Change 1; Change 1] 1);
    [reflexivity|reflexivity|discriminate].
Defined.

(** X5 on the dashboard page: toggled to dark under a light system
    preference, reloaded under a light system preference. *)
Lemma dark_survives_reload_on_dashboard :
  find_by_id dashboard "theme-toggle-checkbox" = Some 1
  ∧ ∃ w w',
      (load ;;; user_events [] ;;; user_event (Change 1))
        (page dashboard ∅ prefers_light) = Normal tt w
      ∧ load (page dashboard (localStorage w) prefers_light) = Normal tt w'
      ∧ rendered_theme w' = rendered_theme w
      ∧ (is_checked w' 1 = true ↔ rendered_theme w = Some "dark").
Proof.
  split; [reflexivity|].
  destruct (toggled_theme_survives_reload dashboard ∅ prefers_light [] 1
              dashboard prefers_light eq_refl)
    as (w & w' & Hrun & Hreload & Hsame & Hchecked).
  exists w, w'. split; [exact Hrun|]. split; [exact Hreload|].
  split; [exact Hsame|]. apply Hchecked; reflexivity.
Defined.

(** X6 on the dashboard page: collapsed by a click, then reloaded. *)
Lemma collapsed_survives_reload_on_dashboard :
  sidebar_handles dashboard 2 3 4
  ∧ has_class (page dashboard ∅ None) 2 "is-collapsed" = false
  ∧ has_class (page dashboard ∅ None) 3 "is-collapsed" = false
  ∧ ∃ w w',
      (load ;;; user_events [] ;;; user_event (Click 4))
        (page dashboard ∅ None) = Normal tt w
      ∧ load (page dashboard (localStorage w) None) = Normal tt w'
      ∧ has_class w' 2 "is-collapsed" = has_class w 2 "is-collapsed"
      ∧ has_class w' 3 "is-collapsed" = has_class w 2 "is-collapsed".
Proof.
  assert (sidebar_handles dashboard 2 3 4) as Hh by (repeat split).
  split; [exact Hh|]. split; [reflexivity|]. split; [reflexivity|].
  exact (clicked_sidebar_survives_reload dashboard ∅ None [] 2 3 4
           dashboard None 2 3 4 Hh Hh eq_refl eq_refl).
Defined.

(** X7 on a page rendered dark. *)
Lemma toggleTheme_twice_from_dark :
  let w := put_attribute 0 "data-theme" "dark" (page dashboard ∅ None) in
  rendered_theme w = Some (theme_name Dark)
  ∧ ∃ w', (toggleTheme ;;; toggleTheme) w = Normal tt w'
      ∧ document w' = document w
      ∧ localStorage w' = <["theme" := "dark"]> (localStorage w).
Proof.
  intros w. split; [reflexivity|].
  exact (toggleTheme_twice_restores w Dark eq_refl).
Defined.

(** X8 on the freshly loaded dashboard page. *)
Lemma two_clicks_on_dashboard :
  sidebar_handles dashboard 2 3 4
  ∧ ∃ w w',
      (load ;;; user_events []) (page dashboard ∅ None) = Normal tt w
      ∧ (user_event (Click 4) ;;; user_event (Click 4)) w = Normal tt w'
      ∧ stored_sidebarState w' = Some (rendered_sidebar w 2)
      ∧ has_class w 2 "is-collapsed" = has_class w 3 "is-collapsed"
      ∧ ∀ h cl, has_class w' h cl = has_class w h cl.
Proof.
  assert (sidebar_handles dashboard 2 3 4) as Hh by (repeat split).
  split; [exact Hh|].
  destruct (two_clicks_restore_classes dashboard ∅ None [] 2 3 4 Hh)
    as (w & w' & Hrun & Hclicks & Hstored & _ & Hall).
  exists w, w'. split; [exact Hrun|]. split; [exact Hclicks|].
  split; [exact Hstored|].
  assert (has_class w 2 "is-collapsed" = has_class w 3 "is-collapsed") as Hsync
    by (vm_compute in Hrun; injection Hrun as <-; reflexivity).
  split; [exact Hsync|exact (Hall Hsync)].
Defined.

(** X9 on the dashboard page, with the root element standing in for
    the sidebar and for the button. *)
Lemma handlers_commute_on_root :
  valid (document (page dashboard ∅ None)) 0
  ∧ valid (document (page dashboard ∅ None)) 3
  ∧ ∃ w1 w2,
      (sidebar_click (Some 0) (Some 3) (Some 0) ;;; toggleTheme)
        (page dashboard ∅ None) = Normal tt w1
      ∧ (toggleTheme ;;; sidebar_click (Some 0) (Some 3) (Some 0))
          (page dashboard ∅ None) = Normal tt w2
      ∧ document w1 = document w2
      ∧ localStorage w1 = localStorage w2
      ∧ listeners w1 = listeners w2.
Proof.
  assert (valid (document (page dashboard ∅ None)) 0) as H0
    by (eexists; reflexivity).
  assert (valid (document (page dashboard ∅ None)) 3) as H3
    by (eexists; reflexivity).
  split; [exact H0|]. split; [exact H3|].
  exact (handlers_commute (page dashboard ∅ None) 0 3 0 H0 H3 H0).
Defined.

(** X10 on the dashboard page: the checkbox element is untouched by a
    click on the toggle button. *)
Lemma click_leaves_checkbox_alone :
  valid (document (page dashboard ∅ None)) 2
  ∧ valid (document (page dashboard ∅ None)) 3
  ∧ valid (document (page dashboard ∅ None)) 4
  ∧ ∃ w', sidebar_click (Some 2) (Some 3) (Some 4) (page dashboard ∅ None)
          = Normal tt w'
      ∧ node w' 1 = node (page dashboard ∅ None) 1
      ∧ localStorage w' !! "theme" = None.
Proof.
  assert (valid (document (page dashboard ∅ None)) 2) as H2
    by (eexists; reflexivity).
  assert (valid (document (page dashboard ∅ None)) 3) as H3
    by (eexists; reflexivity).
  assert (valid (document (page dashboard ∅ None)) 4) as H4
    by (eexists; reflexivity).
  split; [exact H2|]. split; [exact H3|]. split; [exact H4|].
  destruct (sidebar_click_touches_only_its_own (page dashboard ∅ None) 2 3 4 H2 H3 H4)
    as (w' & Hrun & Hnode & _ & _ & _ & Hstore & _).
  exists w'. split; [exact Hrun|]. split.
  - apply Hnode; discriminate.
  - rewrite Hstore by discriminate. reflexivity.
Defined.

(** X11 on the dashboard page: [sidebarState] is untouched by
    [toggleTheme]. *)
Lemma toggle_leaves_sidebarState_alone :
  ∃ w', toggleTheme (page dashboard {[ "sidebarState" := "collapsed" ]} None)
        = Normal tt w'
    ∧ localStorage w' !! "sidebarState" = Some "collapsed".
Proof.
  destruct (toggleTheme_touches_only_its_own
              (page dashboard {[ "sidebarState" := "collapsed" ]} None))
    as (w' & Hrun & _ & _ & _ & _ & Hstore & _).
  exists w'. split; [exact Hrun|].
  rewrite Hstore by discriminate. reflexivity.
Defined.

(** X12 on the dashboard page with a dark system preference. *)
Lemma empty_stored_theme_on_dashboard :
  ({[ "theme" := "" ]} : gmap string string) !! "theme" = Some ""
  ∧ ∃ w w0, load (page dashboard {[ "theme" := "" ]} prefers_dark) = Normal tt w
      ∧ load (page dashboard (delete "theme" {[ "theme" := "" ]}) prefers_dark)
        = Normal tt w0
      ∧ document w = document w0
      ∧ listeners w = listeners w0
      ∧ localStorage w = {[ "theme" := "" ]}.
Proof.
  split; [reflexivity|].
  exact (empty_stored_theme_is_ignored dashboard {[ "theme" := "" ]} prefers_dark
           eq_refl).
Defined.

(** X13 on the dashboard page in a browser without [matchMedia]. *)
Lemma theme_init_without_matchMedia :
  truthy ((∅ : gmap string string) !! "theme") = false
  ∧ media_matches None "(prefers-color-scheme: dark)" = false
  ∧ ∃ w, theme_module (page dashboard ∅ None) = Normal tt w
      ∧ document w = dashboard
      ∧ localStorage w = ∅.
Proof.
  split; [reflexivity|]. split; [reflexivity|].
  exact (theme_init_without_preference dashboard ∅ None eq_refl eq_refl).
Defined.

(** X15 on the dashboard page: a key of another script is kept. *)
Lemma foreign_key_is_kept :
  ∃ w, (load ;;; user_events [Change 1; Click 4])
         (page dashboard {[ "token" := "abc" ]} None) = Normal tt w
    ∧ localStorage w !! "token" = Some "abc".
Proof.
  destruct (storage_writes_are_confined dashboard {[ "token" := "abc" ]} None
              [Change 1; Click 4]) as (w & Hrun & _ & Hkeys).
  exists w. split; [exact Hrun|].
  rewrite Hkeys by discriminate. reflexivity.
Defined.

(** The agreement X8 asks for is needed: on a page rendered with the
    marker on the sidebar only, two clicks leave it on the container
    as well. *)
Lemma two_clicks_synchronise_container :
  ∃ w w',
    load (page out_of_step ∅ None) = Normal tt w
    ∧ (user_event (Click 4) ;;; user_event (Click 4)) w = Normal tt w'
    ∧ has_class w 3 "is-collapsed" = false
    ∧ has_class w' 3 "is-collapsed" = true.
Proof.
  eexists _, _. split; [vm_compute; reflexivity|].
  split; [vm_compute; reflexivity|]. split; reflexivity.
Qed.
